(** * The ECommerceApplication reconciler

    A shallow embedding of [operator/controllers/ecommerceapplication_controller.go]
    and the properties of its reconciliation loop.

    The controller talks to the cluster through three client calls ([Get],
    [Create], [Update]).  The cluster is modelled by a [World]: a resource
    store, an oracle that decides which calls fail and with which error, and
    the list of calls served so far.  [Reconcile] is written in a small
    state-and-exit monad over that world, statement by statement as in the Go
    source. *)

From Stdlib Require Import ZArith Ascii String List.
From stdpp Require Import base option gmap strings list fin_maps pretty.

Open Scope Z_scope.
Open Scope string_scope.
Open Scope list_scope.

(** ** Go values *)

(** Go's [error] values that can reach the controller. [StatusError] is the
    API machinery's error (k8s.io/apimachinery/pkg/api/errors), the other
    constructors are the errors of [encoding/json], [encoding/base64] and
    controller-runtime. A nil error is [None : option error]. *)
Inductive StatusReason :=
| StatusReasonNotFound
| StatusReasonAlreadyExists
| StatusReasonConflict
| StatusReasonInvalid
| StatusReasonInternalError
| StatusReasonTimeout
| StatusReasonUnknown.

Inductive error :=
| StatusError (reason : StatusReason) (message : string)
| SyntaxError (message : string)
| CorruptInputError (offset : Z)
| OwnerError (message : string).

(** [err != nil] and [err == nil] *)
Definition notNil (err : option error) : bool :=
  match err with
  | Some _ => true
  | None => false
  end.
Definition isNil (err : option error) : bool := negb (notNil err).

(** [errors.IsNotFound]: false on nil. *)
Definition IsNotFound (err : option error) : bool :=
  match err with
  | Some (StatusError StatusReasonNotFound _) => true
  | _ => false
  end.

(** [time.Duration] counts nanoseconds. *)
Definition Nanosecond : Z := 1.
Definition Second : Z := 1000000000 * Nanosecond.
Definition Minute : Z := 60 * Second.

(** ** API types (the fields the controller reads or writes) *)

Module NamespacedName.
Record t := { Namespace : string; Name : string }.
End NamespacedName.

Module OwnerReference.
Record t := {
    APIVersion : string;
    Kind : string;
    Name : string;
    UID : string;
    Controller : option bool;
    BlockOwnerDeletion : option bool }.
End OwnerReference.

Module TypeMeta.
Record t := { Kind : string; APIVersion : string }.
Definition zero : t := {| Kind := ""; APIVersion := "" |}.
End TypeMeta.

Module ObjectMeta.
(** Go's nil and empty maps and slices are not told apart. [metav1.Time]
    is an instant in nanoseconds, its zero value is [0]. *)
Record t := {
    Name : string;
    GenerateName : string;
    Namespace : string;
    SelfLink : string;
    UID : string;
    ResourceVersion : string;
    Generation : Z;
    CreationTimestamp : Z;
    DeletionTimestamp : option Z;
    DeletionGracePeriodSeconds : option Z;
    Labels : gmap string string;
    Annotations : gmap string string;
    OwnerReferences : list OwnerReference.t;
    Finalizers : list string;
    ClusterName : string;
    ManagedFields : list string }.

Definition zero : t := {|
    Name := ""; GenerateName := ""; Namespace := ""; SelfLink := ""; UID := "";
    ResourceVersion := ""; Generation := 0; CreationTimestamp := 0;
    DeletionTimestamp := None; DeletionGracePeriodSeconds := None;
    Labels := ∅; Annotations := ∅; OwnerReferences := []; Finalizers := [];
    ClusterName := ""; ManagedFields := [] |}.

Definition set_OwnerReferences (refs : list OwnerReference.t) (m : t) : t := {|
    Name := Name m; GenerateName := GenerateName m; Namespace := Namespace m;
    SelfLink := SelfLink m; UID := UID m; ResourceVersion := ResourceVersion m;
    Generation := Generation m; CreationTimestamp := CreationTimestamp m;
    DeletionTimestamp := DeletionTimestamp m;
    DeletionGracePeriodSeconds := DeletionGracePeriodSeconds m;
    Labels := Labels m; Annotations := Annotations m; OwnerReferences := refs;
    Finalizers := Finalizers m; ClusterName := ClusterName m;
    ManagedFields := ManagedFields m |}.
End ObjectMeta.

Module ContainerPort.
Record t := { Name : string; ContainerPort : Z }.
End ContainerPort.

Module Container.
Record t := {
    Name : string;
    Image : string;
    Args : list string;
    Ports : list ContainerPort.t }.
End Container.

Module PodSpec.
Record t := { Containers : list Container.t }.
Definition zero : t := {| Containers := [] |}.
End PodSpec.

Module PodTemplateSpec.
Record t := { ObjectMeta : ObjectMeta.t; Spec : PodSpec.t }.
Definition zero : t := {| ObjectMeta := ObjectMeta.zero; Spec := PodSpec.zero |}.
End PodTemplateSpec.

Module LabelSelector.
Record t := { MatchLabels : gmap string string }.
End LabelSelector.

(** [corev1.Secret] *)
Module Secret.
Record t := {
    TypeMeta : TypeMeta.t;
    ObjectMeta : ObjectMeta.t;
    Immutable : option bool;
    Data : gmap string string;
    StringData : gmap string string;
    Type_ : string }.
Definition zero : t := {|
    TypeMeta := TypeMeta.zero; ObjectMeta := ObjectMeta.zero; Immutable := None;
    Data := ∅; StringData := ∅; Type_ := "" |}.
End Secret.

(** [batch.Job] *)
Module JobSpec.
Record t := { Template : PodTemplateSpec.t }.
End JobSpec.

Module Job.
Record t := { TypeMeta : TypeMeta.t; ObjectMeta : ObjectMeta.t; Spec : JobSpec.t }.
End Job.

(** [appsv1.Deployment]; [Replicas] is a [*int32]. *)
Module DeploymentSpec.
Record t := {
    Replicas : option Z;
    Selector : option LabelSelector.t;
    Template : PodTemplateSpec.t }.
Definition zero : t :=
    {| Replicas := None; Selector := None; Template := PodTemplateSpec.zero |}.
Definition set_Replicas (r : option Z) (s : t) : t :=
    {| Replicas := r; Selector := Selector s; Template := Template s |}.
End DeploymentSpec.

Module Deployment.
Record t := {
    TypeMeta : TypeMeta.t;
    ObjectMeta : ObjectMeta.t;
    Spec : DeploymentSpec.t }.
Definition zero : t := {|
    TypeMeta := TypeMeta.zero; ObjectMeta := ObjectMeta.zero;
    Spec := DeploymentSpec.zero |}.
Definition set_Spec (s : DeploymentSpec.t) (d : t) : t :=
    {| TypeMeta := TypeMeta d; ObjectMeta := ObjectMeta d; Spec := s |}.
Definition set_ObjectMeta (m : ObjectMeta.t) (d : t) : t :=
    {| TypeMeta := TypeMeta d; ObjectMeta := m; Spec := Spec d |}.
End Deployment.

Module ECommerceApplicationSpec.
(** Modelled from the spec: the custom resource type of package
    [api/v1alpha1], which the controller imports as [cachev1alpha1] and whose
    declaration is not part of the controller file. The spec's
    DesiredStateObject has an identity (name, namespace), [size],
    [credentialSourceName] and [tenantName]; the controller reads them as
    [Spec.Size] (compared with an [int32]), [Spec.PostgresSecretName] and
    [Spec.TenantName]. *)
Record t := { Size : Z; PostgresSecretName : string; TenantName : string }.
Definition zero : t := {| Size := 0; PostgresSecretName := ""; TenantName := "" |}.
End ECommerceApplicationSpec.

Module ECommerceApplication.
(** Modelled from the spec: the DesiredStateObject itself, see
    [ECommerceApplicationSpec.t]. *)
Record t := {
    TypeMeta : TypeMeta.t;
    ObjectMeta : ObjectMeta.t;
    Spec : ECommerceApplicationSpec.t }.
Definition zero : t := {|
    TypeMeta := TypeMeta.zero; ObjectMeta := ObjectMeta.zero;
    Spec := ECommerceApplicationSpec.zero |}.
Definition Name (m : t) : string := ObjectMeta.Name (ObjectMeta m).
Definition Namespace (m : t) : string := ObjectMeta.Namespace (ObjectMeta m).
End ECommerceApplication.

(** [corev1.Pod], as far as the controller looks at it. *)
Module Pod.
Record t := { ObjectMeta : ObjectMeta.t; Spec : PodSpec.t }.
End Pod.

(** [ctrl.Request] and [ctrl.Result] *)
Module Request.
Record t := { NamespacedName : NamespacedName.t }.
End Request.

Module Result.
Record t := { Requeue : bool; RequeueAfter : Z }.
Definition zero : t := {| Requeue := false; RequeueAfter := 0 |}.
End Result.

(** ** The credential binding (lines 66-121 of the controller) *)

Module Argument.
Record t := { arr : list string }.
End Argument.

Module Certificate.
Record t := {
  CertificateAuthority : string;
  CertificateBase64 : string;
  Name : string }.
End Certificate.

Module Environment.
Record t := { PgpPassword : string; PgSslRootCert : string }.
End Environment.

Module Cli.
Record t := {
  Arguments : list Argument.t;
  Bin : string;
  Certificate : Certificate.t;
  Composed : list string;
  Environment : Environment.t;
  Type_ : string }.
End Cli.

Module Authentication.
Record t := { Method : string; Password : string; Username : string }.
End Authentication.

Module Hosts.
Record t := { Hostname : string; Port : Z }.
End Hosts.

Module QueryOptions.
Record t := { SslMode : string }.
End QueryOptions.

Module Postgres.
Record t := {
  Authentication : Authentication.t;
  Certificate : Certificate.t;
  Composed : list string;
  Database : string;
  Hosts : list Hosts.t;
  Path : string;
  QueryOptions : QueryOptions.t;
  Scheme : string;
  Type_ : string }.
End Postgres.

Module PostgresBindingJSON.
Record t := { Cli : Cli.t; Postgres : Postgres.t }.
End PostgresBindingJSON.

(** ** The cluster: resource store, failing calls, served calls *)

Inductive Kind :=
| KindECommerceApplication
| KindSecret
| KindJob
| KindDeployment.

Inductive AnyObject :=
| AnyECommerceApplication (m : ECommerceApplication.t)
| AnySecret (s : Secret.t)
| AnyJob (j : Job.t)
| AnyDeployment (d : Deployment.t).

Global Instance Kind_eq_dec : EqDecision Kind.
Proof. solve_decision. Defined.

Definition Kind_code (k : Kind) : nat :=
  match k with
  | KindECommerceApplication => 0
  | KindSecret => 1
  | KindJob => 2
  | KindDeployment => 3
  end%nat.

Definition Kind_of_code (n : nat) : Kind :=
  match n with
  | 0 => KindECommerceApplication
  | 1 => KindSecret
  | 2 => KindJob
  | _ => KindDeployment
  end%nat.

Global Instance Kind_countable : Countable Kind :=
  inj_countable' Kind_code Kind_of_code
    (λ k, match k with
          | KindECommerceApplication | KindSecret | KindJob | KindDeployment => eq_refl
          end).

(** A resource is stored under its kind, namespace and name. *)
Abbreviation Key := (Kind * string * string)%type.

Definition keyOfName (k : Kind) (n : NamespacedName.t) : Key :=
  (k, NamespacedName.Namespace n, NamespacedName.Name n).

Definition anyKind (o : AnyObject) : Kind :=
  match o with
  | AnyECommerceApplication _ => KindECommerceApplication
  | AnySecret _ => KindSecret
  | AnyJob _ => KindJob
  | AnyDeployment _ => KindDeployment
  end.

Definition anyMeta (o : AnyObject) : ObjectMeta.t :=
  match o with
  | AnyECommerceApplication m => ECommerceApplication.ObjectMeta m
  | AnySecret s => Secret.ObjectMeta s
  | AnyJob j => Job.ObjectMeta j
  | AnyDeployment d => Deployment.ObjectMeta d
  end.

Definition anyKey (o : AnyObject) : Key :=
  (anyKind o, ObjectMeta.Namespace (anyMeta o), ObjectMeta.Name (anyMeta o)).

(** [client.Object]: the typed resources the client reads and writes. *)
Class Object (A : Type) := {
  kindOf : Kind;
  box : A → AnyObject;
  unbox : AnyObject → option A;
  box_kind : ∀ a, anyKind (box a) = kindOf;
  unbox_box : ∀ a, unbox (box a) = Some a;
  unbox_Some : ∀ o a, unbox o = Some a → o = box a;
  unbox_kind : ∀ o, anyKind o = kindOf → is_Some (unbox o) }.
Global Arguments kindOf A {_}.

Global Instance ECommerceApplication_Object : Object ECommerceApplication.t.
Proof.
  refine {| kindOf := KindECommerceApplication;
            box := AnyECommerceApplication;
            unbox o := match o with AnyECommerceApplication m => Some m | _ => None end |}.
  - done.
  - done.
  - by intros [] ? [= ->].
  - by intros [] [=]; eexists.
Defined.

Global Instance Secret_Object : Object Secret.t.
Proof.
  refine {| kindOf := KindSecret;
            box := AnySecret;
            unbox o := match o with AnySecret s => Some s | _ => None end |}.
  - done.
  - done.
  - by intros [] ? [= ->].
  - by intros [] [=]; eexists.
Defined.

Global Instance Job_Object : Object Job.t.
Proof.
  refine {| kindOf := KindJob;
            box := AnyJob;
            unbox o := match o with AnyJob j => Some j | _ => None end |}.
  - done.
  - done.
  - by intros [] ? [= ->].
  - by intros [] [=]; eexists.
Defined.

Global Instance Deployment_Object : Object Deployment.t.
Proof.
  refine {| kindOf := KindDeployment;
            box := AnyDeployment;
            unbox o := match o with AnyDeployment d => Some d | _ => None end |}.
  - done.
  - done.
  - by intros [] ? [= ->].
  - by intros [] [=]; eexists.
Defined.

(** [types.NamespacedName{Name: o.Name, Namespace: o.Namespace}] *)
Definition anyName (o : AnyObject) : NamespacedName.t :=
  {| NamespacedName.Namespace := ObjectMeta.Namespace (anyMeta o);
     NamespacedName.Name := ObjectMeta.Name (anyMeta o) |}.

Definition nameOf `{Object A} (o : A) : NamespacedName.t := anyName (box o).

(** One call of the client, and the call together with the error it
    answered (nil when it succeeded). *)
Inductive Call :=
| CallGet (k : Kind) (key : NamespacedName.t)
| CallCreate (o : AnyObject)
| CallUpdate (o : AnyObject).

Abbreviation Event := (Call * option error)%type.

(** [faults n c] is the error with which the cluster fails call [c] when it
    is the [n]-th call it serves (a timeout, a conflict, a refused write),
    [None] when it serves the call from the store. *)
Record World := {
  store : gmap Key AnyObject;
  faults : nat → Call → option error;
  events : list Event }.

Definition record (ev : Event) (w : World) : World :=
  {| store := store w; faults := faults w; events := events w ++ [ev] |}.

Definition put (o : AnyObject) (w : World) : World :=
  {| store := <[anyKey o := o]> (store w); faults := faults w; events := events w |}.

(** ** The monad of the controller: state, early return, panic *)

Inductive Outcome :=
| Returned (res : Result.t) (err : option error)
| Panicked (msg : string).

Definition M (A : Type) : Type := World → (Outcome + A) * World.

Definition ret {A} (a : A) : M A := λ w, (inr a, w).

Definition bind {A B} (m : M A) (f : A → M B) : M B := λ w,
  match m w with
  | (inl o, w') => (inl o, w')
  | (inr a, w') => f a w'
  end.

(** [return res, err] *)
Definition Return {A} (res : Result.t) (err : option error) : M A :=
  λ w, (inl (Returned res err), w).

Definition panic {A} (msg : string) : M A := λ w, (inl (Panicked msg), w).

Declare Scope go_scope.
Delimit Scope go_scope with go.
Notation "'let*' p ':=' c 'in' k" := (bind c (λ x, let 'p := x in k))
  (at level 10, p pattern, c at level 100, k at level 200) : go_scope.
Notation "c ;; k" := (bind c (λ _, k))
  (at level 100, right associativity) : go_scope.

(** ** The client *)

Definition NewNotFound (k : Kind) (n : NamespacedName.t) : error :=
  StatusError StatusReasonNotFound (NamespacedName.Name n +:+ " not found").

Definition NewAlreadyExists (o : AnyObject) : error :=
  StatusError StatusReasonAlreadyExists
              (ObjectMeta.Name (anyMeta o) +:+ " already exists").

(** What the cluster answers to a [Get]: the value left in [out] and the
    error. A failed [Get] leaves [out] as it is. *)
Definition answerGet `{Object A} (key : NamespacedName.t) (out : A) (w : World)
  : A * option error :=
  match faults w (length (events w)) (CallGet (kindOf A) key) with
  | Some e => (out, Some e)
  | None =>
      match store w !! keyOfName (kindOf A) key with
      | None => (out, Some (NewNotFound (kindOf A) key))
      | Some o =>
          match unbox o with
          | Some a => (a, None)
          | None => (out, Some (StatusError StatusReasonInternalError "kind mismatch"))
          end
      end
  end.

(** What the cluster answers to a [Create]: it refuses a resource that is
    already there. *)
Definition answerCreate (o : AnyObject) (w : World) : option error :=
  match faults w (length (events w)) (CallCreate o) with
  | Some e => Some e
  | None =>
      match store w !! anyKey o with
      | Some _ => Some (NewAlreadyExists o)
      | None => None
      end
  end.

(** What the cluster answers to an [Update]: it refuses a resource that is
    not there. *)
Definition answerUpdate (o : AnyObject) (w : World) : option error :=
  match faults w (length (events w)) (CallUpdate o) with
  | Some e => Some e
  | None =>
      match store w !! anyKey o with
      | None =>
          Some (NewNotFound (anyKind o) (anyName o))
      | Some _ => None
      end
  end.

(** An accepted write replaces the stored resource as a whole; a refused
    write leaves the store as it is. *)
Definition commit (o : AnyObject) (err : option error) (w : World) : World :=
  match err with
  | None => put o w
  | Some _ => w
  end.

(** [r.Get(ctx, key, out)] *)
Definition Get `{Object A} (key : NamespacedName.t) (out : A) : M (A * option error) :=
  λ w, let r := answerGet key out w in
       (inr r, record (CallGet (kindOf A) key, r.2) w).

(** [r.Create(ctx, obj)] *)
Definition Create `{Object A} (obj : A) : M (option error) :=
  λ w, let err := answerCreate (box obj) w in
       (inr err, record (CallCreate (box obj), err) (commit (box obj) err w)).

(** [r.Update(ctx, obj)] *)
Definition Update `{Object A} (obj : A) : M (option error) :=
  λ w, let err := answerUpdate (box obj) w in
       (inr err, record (CallUpdate (box obj), err) (commit (box obj) err w)).

(** ** Library calls of the controller *)

(** [fmt.Sprintf("%d", n)] *)
Definition formatInt (n : Z) : string := pretty n.

(** [s[i]] on a slice: a run-time panic when [i] is out of range. *)
Definition index {A} (s : list A) (i : nat) : M A :=
  match s !! i with
  | Some a => ret a
  | None =>
      panic ("runtime error: index out of range [" +:+ pretty i
             +:+ "] with length " +:+ pretty (length s))
  end.

(** [*p] on a pointer: a run-time panic when [p] is nil. *)
Definition deref {A} (p : option A) : M A :=
  match p with
  | Some a => ret a
  | None => panic "runtime error: invalid memory address or nil pointer dereference"
  end.

(** The group, version and kind under which the manager's scheme registers
    the custom resource (the group of the kubebuilder markers, the version of
    the imported package). [SetupWithManager] builds the controller
    [For(&cachev1alpha1.ECommerceApplication{})], so the controller only runs
    with the type registered. *)
Definition ECommerceApplicationAPIVersion : string :=
  "cache.saas.ecommerce.sample.com/v1alpha1".
Definition ECommerceApplicationKind : string := "ECommerceApplication".

Definition referSameObject (a b : OwnerReference.t) : bool :=
  bool_decide (OwnerReference.APIVersion a = OwnerReference.APIVersion b)
  && bool_decide (OwnerReference.Kind a = OwnerReference.Kind b)
  && bool_decide (OwnerReference.Name a = OwnerReference.Name b).

Definition isController (r : OwnerReference.t) : bool :=
  bool_decide (OwnerReference.Controller r = Some true).

Fixpoint upsertOwnerRef (ref : OwnerReference.t) (refs : list OwnerReference.t)
  : list OwnerReference.t :=
  match refs with
  | [] => [ref]
  | r :: rest =>
      if referSameObject r ref then ref :: rest else r :: upsertOwnerRef ref rest
  end.

(** The reference that makes [owner] the controller of a resource. *)
Definition controllerRef (owner : ECommerceApplication.t) : OwnerReference.t := {|
  OwnerReference.APIVersion := ECommerceApplicationAPIVersion;
  OwnerReference.Kind := ECommerceApplicationKind;
  OwnerReference.Name := ECommerceApplication.Name owner;
  OwnerReference.UID := ObjectMeta.UID (ECommerceApplication.ObjectMeta owner);
  OwnerReference.Controller := Some true;
  OwnerReference.BlockOwnerDeletion := Some true |}.

(** controller-runtime's [ctrl.SetControllerReference(owner, controlled,
    scheme)], on the metadata of the controlled object: the owner must live
    in the namespace of the controlled object (or be cluster-scoped), the
    controlled object must not have another controller, and the reference is
    added to [OwnerReferences]. On an error the metadata is left as it is. *)
Definition SetControllerReference (owner : ECommerceApplication.t)
    (controlled : ObjectMeta.t) : ObjectMeta.t * option error :=
  let ownerNs := ECommerceApplication.Namespace owner in
  let objNs := ObjectMeta.Namespace controlled in
  if negb (bool_decide (ownerNs = "")) && bool_decide (objNs = "") then
    (controlled, Some (OwnerError "cluster-scoped resource must not have a namespace-scoped owner"))
  else if negb (bool_decide (ownerNs = "")) && negb (bool_decide (ownerNs = objNs)) then
    (controlled, Some (OwnerError "cross-namespace owner references are disallowed"))
  else
    let ref := controllerRef owner in
    match List.find isController (ObjectMeta.OwnerReferences controlled) with
    | Some existing =>
        if referSameObject existing ref then
          (ObjectMeta.set_OwnerReferences
             (upsertOwnerRef ref (ObjectMeta.OwnerReferences controlled)) controlled, None)
        else (controlled, Some (OwnerError "object is already owned by another controller"))
    | None =>
        (ObjectMeta.set_OwnerReferences
           (upsertOwnerRef ref (ObjectMeta.OwnerReferences controlled)) controlled, None)
    end.

(** ** The controller *)

(** [labelsForMemcached] returns the labels for selecting the resources
    belonging to the given memcached CR name. *)
Definition labelsForMemcached (name : string) : gmap string string :=
  {[ "app" := "memcached"; "memcached_cr" := name ]}.

(** [getPodNames] returns the pod names of the array of pods passed in: the
    loop that appends the name of each pod. *)
Definition getPodNames (pods : list Pod.t) : list string :=
  fold_left (λ podNames pod, podNames ++ [ObjectMeta.Name (Pod.ObjectMeta pod)])
            pods [].

(** [deploymentForMemcached] returns a memcached Deployment object. The error
    of [SetControllerReference] is dropped, as in the source. *)
Definition deploymentForMemcached (m : ECommerceApplication.t) : Deployment.t :=
  let ls := labelsForMemcached (ECommerceApplication.Name m) in
  let replicas := ECommerceApplicationSpec.Size (ECommerceApplication.Spec m) in
  let dep := {|
    Deployment.TypeMeta := TypeMeta.zero;
    Deployment.ObjectMeta := {|
      ObjectMeta.Name := ECommerceApplication.Name m;
      ObjectMeta.GenerateName := "";
      ObjectMeta.Namespace := ECommerceApplication.Namespace m;
      ObjectMeta.SelfLink := ""; ObjectMeta.UID := "";
      ObjectMeta.ResourceVersion := ""; ObjectMeta.Generation := 0;
      ObjectMeta.CreationTimestamp := 0; ObjectMeta.DeletionTimestamp := None;
      ObjectMeta.DeletionGracePeriodSeconds := None;
      ObjectMeta.Labels := ∅; ObjectMeta.Annotations := ∅;
      ObjectMeta.OwnerReferences := []; ObjectMeta.Finalizers := [];
      ObjectMeta.ClusterName := ""; ObjectMeta.ManagedFields := [] |};
    Deployment.Spec := {|
      DeploymentSpec.Replicas := Some replicas;
      DeploymentSpec.Selector := Some {| LabelSelector.MatchLabels := ls |};
      DeploymentSpec.Template := {|
        PodTemplateSpec.ObjectMeta := {|
          ObjectMeta.Name := ""; ObjectMeta.GenerateName := "";
          ObjectMeta.Namespace := ""; ObjectMeta.SelfLink := ""; ObjectMeta.UID := "";
          ObjectMeta.ResourceVersion := ""; ObjectMeta.Generation := 0;
          ObjectMeta.CreationTimestamp := 0; ObjectMeta.DeletionTimestamp := None;
          ObjectMeta.DeletionGracePeriodSeconds := None;
          ObjectMeta.Labels := ls; ObjectMeta.Annotations := ∅;
          ObjectMeta.OwnerReferences := []; ObjectMeta.Finalizers := [];
          ObjectMeta.ClusterName := ""; ObjectMeta.ManagedFields := [] |};
        PodTemplateSpec.Spec := {|
          PodSpec.Containers := [ {|
            Container.Name := "service-catalog";
            Container.Image := "quay.io/nheidloff/service-catalog:latest";
            Container.Args := [];
            Container.Ports := [ {|
              ContainerPort.Name := "service-catalog";
              ContainerPort.ContainerPort := 8081 |} ] |} ] |} |} |} |} in
  (* Set Memcached instance as the owner and controller *)
  let '(meta, _) := SetControllerReference m (Deployment.ObjectMeta dep) in
  Deployment.set_ObjectMeta meta dep.

(** Create Secret definition *)
Definition createSecret (name namespace key value : string) : Secret.t * option error :=
  let m : gmap string string := ∅ in
  let m := <[key := value]> m in
  ({| Secret.TypeMeta := {| TypeMeta.APIVersion := "v1"; TypeMeta.Kind := "Secret" |};
      Secret.ObjectMeta := {|
        ObjectMeta.Name := name; ObjectMeta.GenerateName := "";
        ObjectMeta.Namespace := namespace; ObjectMeta.SelfLink := "";
        ObjectMeta.UID := ""; ObjectMeta.ResourceVersion := "";
        ObjectMeta.Generation := 0; ObjectMeta.CreationTimestamp := 0;
        ObjectMeta.DeletionTimestamp := None;
        ObjectMeta.DeletionGracePeriodSeconds := None;
        ObjectMeta.Labels := ∅; ObjectMeta.Annotations := ∅;
        ObjectMeta.OwnerReferences := []; ObjectMeta.Finalizers := [];
        ObjectMeta.ClusterName := ""; ObjectMeta.ManagedFields := [] |};
      Secret.Immutable := Some false;
      Secret.Data := ∅;
      Secret.StringData := m;
      Secret.Type_ := "Opaque" |}, None).

(** [metav1.NamespaceDefault] *)
Definition NamespaceDefault : string := "default".

Definition createPostgresJob (namespace : string) : Job.t * option error :=
  let args := ["/bin/sh"; "-c"; "date; echo Hello from the Kubernetes cluster"] in
  ({| Job.TypeMeta := {| TypeMeta.Kind := "Job"; TypeMeta.APIVersion := "" |};
      Job.ObjectMeta := {|
        ObjectMeta.Name := "pg";
        ObjectMeta.GenerateName := "";
        ObjectMeta.Namespace := NamespaceDefault;
        ObjectMeta.SelfLink := "";
        ObjectMeta.UID := "";
        ObjectMeta.ResourceVersion := "";
        ObjectMeta.Generation := 0;
        ObjectMeta.CreationTimestamp := 0;
        ObjectMeta.DeletionTimestamp := Some 0;
        ObjectMeta.DeletionGracePeriodSeconds := Some 0;
        ObjectMeta.Labels := ∅;
        ObjectMeta.Annotations := ∅;
        ObjectMeta.OwnerReferences := [];
        ObjectMeta.Finalizers := [];
        ObjectMeta.ClusterName := "";
        ObjectMeta.ManagedFields := [] |};
      Job.Spec := {|
        JobSpec.Template := {|
          PodTemplateSpec.ObjectMeta := {|
            ObjectMeta.Name := "pg"; ObjectMeta.GenerateName := "";
            ObjectMeta.Namespace := namespace; ObjectMeta.SelfLink := "";
            ObjectMeta.UID := ""; ObjectMeta.ResourceVersion := "";
            ObjectMeta.Generation := 0; ObjectMeta.CreationTimestamp := 0;
            ObjectMeta.DeletionTimestamp := None;
            ObjectMeta.DeletionGracePeriodSeconds := None;
            ObjectMeta.Labels := ∅; ObjectMeta.Annotations := ∅;
            ObjectMeta.OwnerReferences := []; ObjectMeta.Finalizers := [];
            ObjectMeta.ClusterName := ""; ObjectMeta.ManagedFields := [] |};
          PodTemplateSpec.Spec := {|
            PodSpec.Containers := [
              {| Container.Name := ""; Container.Image := "bash";
                 Container.Args := []; Container.Ports := [] |};
              {| Container.Name := ""; Container.Image := "";
                 Container.Args := args; Container.Ports := [] |} ] |} |} |} |}, None).

(** [if err != nil { return ctrl.Result{}, err }] *)
Definition check (err : option error) : M unit :=
  if notNil err then Return Result.zero err else ret tt.

(** The two library calls whose code is not the controller's:
    [json.Unmarshal(payload, &data)] into a [PostgresBindingJSON], and
    [b64.StdEncoding.DecodeString], which answers the bytes it decoded
    together with its error. *)
Class Libraries := {
  json_Unmarshal : string → PostgresBindingJSON.t + error;
  b64_DecodeString : string → string * option error }.

Section Controller.

Context `{libs : Libraries}.

Open Scope go_scope.

Definition ReconcileBody (req : Request.t) : M Empty_set :=
  (* Fetch the Memcached instance *)
  let memcached := ECommerceApplication.zero in
  let* (memcached, err) := Get (Request.NamespacedName req) memcached in
  (if notNil err then
     if IsNotFound err then
       (* Request object not found, could have been deleted after reconcile
          request. Return and don't requeue *)
       Return Result.zero None
     else
       (* Error reading the object - requeue the request. *)
       Return Result.zero err
   else ret tt) ;;
  let namespace := ECommerceApplication.Namespace memcached in

  (* Check if the Postgres secret created by IBM Cloud Operator already exists *)
  let secret := Secret.zero in
  let* (secret, err) :=
    Get {| NamespacedName.Name :=
             ECommerceApplicationSpec.PostgresSecretName (ECommerceApplication.Spec memcached);
           NamespacedName.Namespace := namespace |} secret in
  (if notNil err && IsNotFound err then
     Return {| Result.Requeue := false; Result.RequeueAfter := Second * 300 |} None
   else if isNil err then
     (* try to unmarshal the contents of the ICO secret *)
     let* data :=
       match json_Unmarshal (default "" (Secret.Data secret !! "connection")) with
       | inl data => ret data
       | inr err => Return Result.zero (Some err)
       end in
     let postgres := PostgresBindingJSON.Postgres data in

     (* Create secret postgres.username *)
     let targetSecretName := "postgres.username" in
     let '(targetSecret, err) :=
       createSecret targetSecretName namespace "POSTGRES_USERNAME"
         (Authentication.Username (Postgres.Authentication postgres)) in
     check err ;;
     let* (secret, err) := Get (nameOf targetSecret) secret in
     (if notNil err && IsNotFound err then
        let* err := Create targetSecret in check err
      else
        let* err := Update targetSecret in check err) ;;

     (* Create secret postgres.password *)
     let targetSecretName := "postgres.password" in
     let '(targetSecret, err) :=
       createSecret targetSecretName namespace "POSTGRES_PASSWORD"
         (Authentication.Password (Postgres.Authentication postgres)) in
     check err ;;
     let* (secret, err) := Get (nameOf targetSecret) secret in
     (if notNil err && IsNotFound err then
        let* err := Create targetSecret in check err
      else
        let* err := Update targetSecret in check err) ;;

     (* Create secret postgres.certificate-data *)
     let targetSecretName := "postgres.certificate-data" in
     let '(decodeArr, _) :=
       b64_DecodeString (Certificate.CertificateBase64 (Postgres.Certificate postgres)) in
     let certDecoded := decodeArr in
     let '(targetSecret, err) :=
       createSecret targetSecretName namespace "POSTGRES_CERTIFICATE_DATA" certDecoded in
     check err ;;
     let* (secret, err) := Get (nameOf targetSecret) secret in
     (if notNil err && IsNotFound err then
        let* err := Create targetSecret in check err
      else
        let* err := Update targetSecret in check err) ;;

     (* Create secret postgres.url *)
     let targetSecretName := "postgres.url" in
     let* host0 := index (Postgres.Hosts postgres) 0 in
     let* host0' := index (Postgres.Hosts postgres) 0 in
     let postgresUrl :=
       "jdbc:postgresql://" +:+ Hosts.Hostname host0 +:+ ":"
       +:+ formatInt (Hosts.Port host0') +:+ "/" +:+ Postgres.Database postgres
       +:+ "?sslmode=verify-full&sslrootcert=/cloud-postgres-cert" in
     let '(targetSecret, err) :=
       createSecret targetSecretName namespace "POSTGRES_URL" postgresUrl in
     check err ;;
     let* (secret, err) := Get (nameOf targetSecret) secret in
     (if notNil err && IsNotFound err then
        let* err := Create targetSecret in check err
      else
        let* err := Update targetSecret in check err)
   else if notNil err then
     Return Result.zero err
   else ret tt) ;;

  (* Create batch Job to populate Postgres *)
  let '(pgJob, err) := createPostgresJob namespace in
  check err ;;
  let* (pgJob, err) := Get (nameOf pgJob) pgJob in
  (if notNil err && IsNotFound err then
     let* err := Create pgJob in check err
   else
     let* err := Update pgJob in check err) ;;

  (* Check if the deployment already exists, if not create a new one *)
  let found := Deployment.zero in
  let* (found, err) :=
    Get {| NamespacedName.Name := ECommerceApplication.Name memcached;
           NamespacedName.Namespace := namespace |} found in
  (if notNil err && IsNotFound err then
     (* Define a new deployment *)
     let dep := deploymentForMemcached memcached in
     let* err := Create dep in
     check err ;;
     (* Deployment created successfully - return and requeue *)
     Return {| Result.Requeue := true; Result.RequeueAfter := 0 |} None
   else if notNil err then
     Return Result.zero err
   else ret tt) ;;

  (* Ensure the deployment size is the same as the spec *)
  let size := ECommerceApplicationSpec.Size (ECommerceApplication.Spec memcached) in
  let* replicas := deref (DeploymentSpec.Replicas (Deployment.Spec found)) in
  if negb (bool_decide (replicas = size)) then
    let found :=
      Deployment.set_Spec
        (DeploymentSpec.set_Replicas (Some size) (Deployment.Spec found)) found in
    let* err := Update found in
    check err ;;
    (* Ask to requeue after 1 minute *)
    Return {| Result.Requeue := false; Result.RequeueAfter := Minute |} None
  else
    Return Result.zero None.

(** [Reconcile]: the decision and the world it leaves. *)
Definition Reconcile (req : Request.t) (w : World) : Outcome * World :=
  match ReconcileBody req w with
  | (inl o, w') => (o, w')
  | (inr never, _) => match never with end
  end.

End Controller.

(** ** Go's [encoding/base64], standard alphabet with padding *)

Module base64.
Local Open Scope Z_scope.
Local Open Scope list_scope.

(** [decodeMap]: the six bits of an alphabet character, [None] for the
    bytes outside the alphabet (Go's 0xff entries). *)
Definition decodeMap (c : ascii) : option Z :=
  let n := Z.of_N (Ascii.N_of_ascii c) in
  if (65 <=? n) && (n <=? 90) then Some (n - 65)
  else if (97 <=? n) && (n <=? 122) then Some (n - 71)
  else if (48 <=? n) && (n <=? 57) then Some (n + 4)
  else if n =? 43 then Some 62
  else if n =? 47 then Some 63
  else None.

Definition isNewline (c : ascii) : bool :=
  bool_decide (c = "010"%char) || bool_decide (c = "013"%char).

Definition isPad (c : ascii) : bool := bool_decide (c = "="%char).

Definition byteOf (n : Z) : ascii := Ascii.ascii_of_N (Z.to_N (n mod 256)).

(** The bytes of one quantum: [dlen - 1] bytes out of the [dlen] six-bit
    digits read, the missing digits being zero. *)
Definition quantumBytes (dbuf : list Z) : list ascii :=
  let d i := default 0 (dbuf !! i) in
  let val :=
    Z.lor (Z.lor (Z.lor (Z.shiftl (d 0%nat) 18) (Z.shiftl (d 1%nat) 12))
                 (Z.shiftl (d 2%nat) 6)) (d 3%nat) in
  take (length dbuf - 1)
       [byteOf (Z.shiftr val 16); byteOf (Z.shiftr val 8); byteOf val].

Fixpoint skipNewlines (src : list ascii) (si : Z) : list ascii * Z :=
  match src with
  | c :: rest => if isNewline c then skipNewlines rest (si + 1) else (src, si)
  | [] => ([], si)
  end.

(** [Decode], as the loop over [decodeQuantum] that it is: [dbuf] holds the
    digits of the quantum being read, [si] is the offset of [src] in the
    input, [len] the length of the input. The result is the decoded bytes
    and the error. *)
Fixpoint decodeFrom (len : Z) (src : list ascii) (si : Z) (dbuf : list Z)
  : list ascii * option error :=
  match src with
  | [] =>
      match dbuf with
      | [] => ([], None)
      | _ => ([], Some (CorruptInputError (si - Z.of_nat (length dbuf))))
      end
  | c :: rest =>
      let si := si + 1 in
      match decodeMap c with
      | Some out =>
          let dbuf := dbuf ++ [out] in
          if bool_decide (length dbuf = 4%nat) then
            let '(bytes, err) := decodeFrom len rest si [] in
            (quantumBytes dbuf ++ bytes, err)
          else decodeFrom len rest si dbuf
      | None =>
          if isNewline c then decodeFrom len rest si dbuf
          else if negb (isPad c) then ([], Some (CorruptInputError (si - 1)))
          else
            (* We've reached the end and there's padding *)
            match length dbuf with
            | 0%nat | 1%nat => ([], Some (CorruptInputError (si - 1)))
            | j =>
                let afterPad : option (list ascii * Z) + error :=
                  if bool_decide (j = 2%nat) then
                    (* "==" is expected, the first "=" is already consumed *)
                    let '(rest', si') := skipNewlines rest si in
                    match rest' with
                    | [] => inr (CorruptInputError len)
                    | c' :: rest'' =>
                        if isPad c' then inl (Some (rest'', si' + 1))
                        else inr (CorruptInputError (si' - 1))
                    end
                  else inl (Some (rest, si)) in
                match afterPad with
                | inr e => ([], Some e)
                | inl None => ([], None)
                | inl (Some (rest', si')) =>
                    let '(rest'', si'') := skipNewlines rest' si' in
                    match rest'' with
                    | [] => (quantumBytes dbuf, None)
                    | _ =>
                        (* trailing garbage *)
                        (quantumBytes dbuf, Some (CorruptInputError si''))
                    end
                end
            end
      end
  end.

(** [StdEncoding.DecodeString] *)
Definition DecodeString (s : string) : string * option error :=
  let src := list_ascii_of_string s in
  let '(bytes, err) := decodeFrom (Z.of_nat (length src)) src 0 [] in
  (string_of_list_ascii bytes, err).

End base64.

(** ** A sample cluster *)

Module Sample.

(** The text of a JSON document, written with ' for the double quote. *)
Definition jsonText (s : string) : string :=
  string_of_list_ascii
    (List.map (λ c : ascii, if bool_decide (c = "'"%char) then ascii_of_nat 34 else c)
              (list_ascii_of_string s)).

Definition bindingOf (username password cert : string) (hosts : list Hosts.t)
    (database : string) : PostgresBindingJSON.t := {|
  PostgresBindingJSON.Cli := {|
    Cli.Arguments := []; Cli.Bin := "";
    Cli.Certificate := {| Certificate.CertificateAuthority := "";
                          Certificate.CertificateBase64 := "";
                          Certificate.Name := "" |};
    Cli.Composed := [];
    Cli.Environment := {| Environment.PgpPassword := ""; Environment.PgSslRootCert := "" |};
    Cli.Type_ := "" |};
  PostgresBindingJSON.Postgres := {|
    Postgres.Authentication := {| Authentication.Method := "";
                                  Authentication.Password := password;
                                  Authentication.Username := username |};
    Postgres.Certificate := {| Certificate.CertificateAuthority := "";
                               Certificate.CertificateBase64 := cert;
                               Certificate.Name := "" |};
    Postgres.Composed := [];
    Postgres.Database := database;
    Postgres.Hosts := hosts;
    Postgres.Path := "";
    Postgres.QueryOptions := {| QueryOptions.SslMode := "" |};
    Postgres.Scheme := "";
    Postgres.Type_ := "" |} |}.

Definition payload : string := jsonText
  "{'postgres':{'authentication':{'username':'u','password':'p'},'certificate':{'certificate_base64':'Q0VSVA=='},'hosts':[{'hostname':'db.local','port':5432},{'hostname':'b','port':2}],'database':'appdb'}}".

Definition payloadBadCertificate : string := jsonText
  "{'postgres':{'authentication':{'username':'u','password':'p'},'certificate':{'certificate_base64':'Q0VS!!!!'},'hosts':[{'hostname':'db.local','port':5432}],'database':'appdb'}}".

Definition payloadNoHosts : string := jsonText
  "{'postgres':{'authentication':{'username':'u','password':'p'},'certificate':{'certificate_base64':'Q0VSVA=='},'hosts':[],'database':'appdb'}}".

(** What [json.Unmarshal] answers on the documents of this sample; every
    other input of the sample is not JSON at all. *)
Definition Unmarshal (data : string) : PostgresBindingJSON.t + error :=
  if bool_decide (data = payload) then
    inl (bindingOf "u" "p" "Q0VSVA=="
           [ {| Hosts.Hostname := "db.local"; Hosts.Port := 5432 |};
             {| Hosts.Hostname := "b"; Hosts.Port := 2 |} ] "appdb")
  else if bool_decide (data = payloadBadCertificate) then
    inl (bindingOf "u" "p" "Q0VS!!!!"
           [ {| Hosts.Hostname := "db.local"; Hosts.Port := 5432 |} ] "appdb")
  else if bool_decide (data = payloadNoHosts) then
    inl (bindingOf "u" "p" "Q0VSVA==" [] "appdb")
  else if bool_decide (data = "") then
    inr (SyntaxError "unexpected end of JSON input")
  else inr (SyntaxError "invalid character looking for beginning of value").

Definition named (namespace name : string) : ObjectMeta.t := {|
  ObjectMeta.Name := name; ObjectMeta.GenerateName := "";
  ObjectMeta.Namespace := namespace; ObjectMeta.SelfLink := "";
  ObjectMeta.UID := "uid-" +:+ name; ObjectMeta.ResourceVersion := "1";
  ObjectMeta.Generation := 1; ObjectMeta.CreationTimestamp := 0;
  ObjectMeta.DeletionTimestamp := None;
  ObjectMeta.DeletionGracePeriodSeconds := None;
  ObjectMeta.Labels := ∅; ObjectMeta.Annotations := ∅;
  ObjectMeta.OwnerReferences := []; ObjectMeta.Finalizers := [];
  ObjectMeta.ClusterName := ""; ObjectMeta.ManagedFields := [] |}.

Definition app : ECommerceApplication.t := {|
  ECommerceApplication.TypeMeta := TypeMeta.zero;
  ECommerceApplication.ObjectMeta := named "tenant-a" "shop";
  ECommerceApplication.Spec := {|
    ECommerceApplicationSpec.Size := 5;
    ECommerceApplicationSpec.PostgresSecretName := "pg-binding";
    ECommerceApplicationSpec.TenantName := "a" |} |}.

Definition binding (data : string) : Secret.t := {|
  Secret.TypeMeta := TypeMeta.zero;
  Secret.ObjectMeta := named "tenant-a" "pg-binding";
  Secret.Immutable := None;
  Secret.Data := {[ "connection" := data ]};
  Secret.StringData := ∅;
  Secret.Type_ := "Opaque" |}.

Definition workload (replicas : Z) : Deployment.t :=
  Deployment.set_Spec
    (DeploymentSpec.set_Replicas (Some replicas) (Deployment.Spec (deploymentForMemcached app)))
    (deploymentForMemcached app).

Definition req : Request.t :=
  {| Request.NamespacedName :=
       {| NamespacedName.Namespace := "tenant-a"; NamespacedName.Name := "shop" |} |}.

(** The libraries of the sample: the decoder above for base64. *)
Definition libraries : Libraries :=
  {| json_Unmarshal := Unmarshal; b64_DecodeString := base64.DecodeString |}.

Definition noFaults : nat → Call → option error := λ _ _, None.

Definition worldOf (objects : list AnyObject) (f : nat → Call → option error) : World :=
  {| store := list_to_map (List.map (λ o, (anyKey o, o)) objects);
     faults := f; events := [] |}.

(** Clusters of the sample: the application with its binding and a
    deployment of [replicas] pods; the application with the binding [data]
    and nothing else; the application alone. *)
Definition cluster (replicas : Z) : World :=
  worldOf [AnyECommerceApplication app; AnySecret (binding payload);
           AnyDeployment (workload replicas)] noFaults.

Definition bound (data : string) (f : nat → Call → option error) : World :=
  worldOf [AnyECommerceApplication app; AnySecret (binding data)] f.

Definition unbound : World := worldOf [AnyECommerceApplication app] noFaults.

(** The cluster that answers a timeout to the read it serves as its [n]-th
    call. *)
Definition timeoutAt (n : nat) : nat → Call → option error :=
  λ i c,
    match c with
    | CallGet _ _ =>
        if bool_decide (i = n) then Some (StatusError StatusReasonTimeout "timeout")
        else None
    | _ => None
    end.

(** The application with a deployment of [replicas] pods and no binding. *)
Definition withoutBinding (replicas : Z) : World :=
  worldOf [AnyECommerceApplication app; AnyDeployment (workload replicas)] noFaults.



(** A cluster without any resource. *)
Definition empty : World := worldOf [] noFaults.

(** The application with its binding and a deployment whose replica count
    is not set. *)
Definition unsized : World :=
  worldOf [AnyECommerceApplication app; AnySecret (binding payload);
           AnyDeployment
             (Deployment.set_Spec
                (DeploymentSpec.set_Replicas None
                   (Deployment.Spec (deploymentForMemcached app)))
                (deploymentForMemcached app))] noFaults.

(** A run of the controller of the sample on the request for the
    application. *)
Definition run (w : World) : Outcome * World := Reconcile (libs:=libraries) req w.

Definition data : PostgresBindingJSON.t :=
  bindingOf "u" "p" "Q0VSVA=="
    [ {| Hosts.Hostname := "db.local"; Hosts.Port := 5432 |};
      {| Hosts.Hostname := "b"; Hosts.Port := 2 |} ] "appdb".

End Sample.

(** ** Vocabulary of the properties *)

(** The calls made between two worlds of one run. *)
Definition calls_of (w w' : World) : list Event :=
  drop (length (events w)) (events w').

(** The resource a call submits for writing. *)
Definition writtenBy (ev : Event) : option AnyObject :=
  match ev.1 with
  | CallCreate o | CallUpdate o => Some o
  | CallGet _ _ => None
  end.

Definition written (tr : list Event) : list AnyObject := omap writtenBy tr.

(** Every resource is stored under its own kind, namespace and name. *)
Definition wf_store (st : gmap Key AnyObject) : Prop :=
  map_Forall (λ key o, anyKey o = key) st.

(** The cluster fails no call on its own account. *)
Definition fault_free (w : World) : Prop := ∀ n c, faults w n c = None.

(** The cluster serves call [c] from the store when it comes as the [n]-th
    call from [w] on. *)
Definition served (w : World) (n : nat) (c : Call) : Prop :=
  faults w (length (events w) + n) c = None.

(** The kind and the name a call is addressed to. *)
Definition targetOf (c : Call) : Kind * NamespacedName.t :=
  match c with
  | CallGet k key => (k, key)
  | CallCreate o | CallUpdate o => (anyKind o, anyName o)
  end.

(** The write of an upsert step: a [Create] when the existence [Get]
    answered NotFound, an [Update] in every other case. *)
Definition mustCreate (err : option error) : bool := notNil err && IsNotFound err.

Definition writeCall (create : bool) (o : AnyObject) : Call :=
  if create then CallCreate o else CallUpdate o.

Definition answerWrite (create : bool) (o : AnyObject) (w : World) : option error :=
  if create then answerCreate o w else answerUpdate o w.

(** The secret and the job the controller builds. *)
Definition secretOf (name namespace key value : string) : Secret.t :=
  (createSecret name namespace key value).1.

Definition postgresJob (namespace : string) : Job.t := (createPostgresJob namespace).1.

(** The connection URL of an endpoint. *)
Definition postgresUrl (h : Hosts.t) (database : string) : string :=
  "jdbc:postgresql://" +:+ Hosts.Hostname h +:+ ":" +:+ formatInt (Hosts.Port h)
  +:+ "/" +:+ database +:+ "?sslmode=verify-full&sslrootcert=/cloud-postgres-cert".

Definition usernameSecret (namespace : string) (p : Postgres.t) : Secret.t :=
  secretOf "postgres.username" namespace "POSTGRES_USERNAME"
    (Authentication.Username (Postgres.Authentication p)).

Definition passwordSecret (namespace : string) (p : Postgres.t) : Secret.t :=
  secretOf "postgres.password" namespace "POSTGRES_PASSWORD"
    (Authentication.Password (Postgres.Authentication p)).

Definition certificateSecret (namespace decoded : string) : Secret.t :=
  secretOf "postgres.certificate-data" namespace "POSTGRES_CERTIFICATE_DATA" decoded.

Definition urlSecret (namespace : string) (p : Postgres.t) (h : Hosts.t) : Secret.t :=
  secretOf "postgres.url" namespace "POSTGRES_URL" (postgresUrl h (Postgres.Database p)).

(** The names of the four projected secrets. *)
Definition derivedSecretNames : list string :=
  ["postgres.username"; "postgres.password"; "postgres.certificate-data"; "postgres.url"].

(** The secrets among the resources written: the name and the string data
    of each. *)
Definition projection (ws : list AnyObject) : list (string * gmap string string) :=
  omap (λ o, match o with
             | AnySecret s =>
                 Some (ObjectMeta.Name (Secret.ObjectMeta s), Secret.StringData s)
             | _ => None
             end) ws.


(** The deployment with its replica count set to [size]. *)
Definition scaled (size : Z) (found : Deployment.t) : Deployment.t :=
  Deployment.set_Spec
    (DeploymentSpec.set_Replicas (Some size) (Deployment.Spec found)) found.

(** The typed resource stored under a name, if any. *)
Definition lookupAs `{Object A} (st : gmap Key AnyObject) (key : NamespacedName.t)
  : option A :=
  st !! keyOfName (kindOf A) key ≫= unbox.

Definition upsert (o : AnyObject) (st : gmap Key AnyObject) : gmap Key AnyObject :=
  <[anyKey o := o]> st.

Section StoreRun.

Context `{libs : Libraries}.

(** What one run does on a cluster that fails no call and stores every
    resource under its own name, as a function of the store alone: the
    decision, the resources submitted for writing, in order, and the store
    left behind. [Reconcile_fault_free] proves that [Reconcile] computes
    exactly this. *)
Definition storeRun (req : Request.t) (st : gmap Key AnyObject)
  : Outcome * list AnyObject * gmap Key AnyObject :=
  match lookupAs st (Request.NamespacedName req) with
  | None => (Returned Result.zero None, [], st)
  | Some memcached =>
    let namespace := ECommerceApplication.Namespace memcached in
    match lookupAs st {|
            NamespacedName.Namespace := namespace;
            NamespacedName.Name :=
              ECommerceApplicationSpec.PostgresSecretName
                (ECommerceApplication.Spec memcached) |} with
    | None =>
        (Returned {| Result.Requeue := false; Result.RequeueAfter := Second * 300 |} None,
         [], st)
    | Some secret =>
      match json_Unmarshal (default "" (Secret.Data secret !! "connection")) with
      | inr err => (Returned Result.zero (Some err), [], st)
      | inl data =>
        let p := PostgresBindingJSON.Postgres data in
        let t1 := AnySecret (usernameSecret namespace p) in
        let t2 := AnySecret (passwordSecret namespace p) in
        let t3 :=
          AnySecret (certificateSecret namespace
            (b64_DecodeString
               (Certificate.CertificateBase64 (Postgres.Certificate p))).1) in
        let st3 := upsert t3 (upsert t2 (upsert t1 st)) in
        match Postgres.Hosts p with
        | [] =>
            (Panicked "runtime error: index out of range [0] with length 0",
             [t1; t2; t3], st3)
        | h :: _ =>
          let t4 := AnySecret (urlSecret namespace p h) in
          let st4 := upsert t4 st3 in
          let pgJob :=
            default (postgresJob namespace)
                    (lookupAs st4 (nameOf (postgresJob namespace))) in
          let st5 := upsert (AnyJob pgJob) st4 in
          let ws := [t1; t2; t3; t4; AnyJob pgJob] in
          match lookupAs st5 {|
                  NamespacedName.Namespace := namespace;
                  NamespacedName.Name := ECommerceApplication.Name memcached |} with
          | None =>
              let dep := AnyDeployment (deploymentForMemcached memcached) in
              (Returned {| Result.Requeue := true; Result.RequeueAfter := 0 |} None,
               ws ++ [dep], upsert dep st5)
          | Some found =>
            let size :=
              ECommerceApplicationSpec.Size (ECommerceApplication.Spec memcached) in
            match DeploymentSpec.Replicas (Deployment.Spec found) with
            | None =>
                (Panicked "runtime error: invalid memory address or nil pointer dereference",
                 ws, st5)
            | Some replicas =>
                if decide (replicas = size) then (Returned Result.zero None, ws, st5)
                else
                  let found' :=
                    AnyDeployment
                      (Deployment.set_Spec
                         (DeploymentSpec.set_Replicas (Some size) (Deployment.Spec found))
                         found) in
                  (Returned {| Result.Requeue := false; Result.RequeueAfter := Minute |} None,
                   ws ++ [found'], upsert found' st5)
            end
          end
        end
      end
    end
  end.

End StoreRun.

(** ** Stepping through the controller *)

Lemma bind_ret {A B} (a : A) (f : A → M B) w : bind (ret a) f w = f a w.
Proof. reflexivity. Qed.

Lemma bind_Return {A B} res err (f : A → M B) w :
  bind (Return res err) f w = (inl (Returned res err), w).
Proof. reflexivity. Qed.

Lemma bind_panic {A B} msg (f : A → M B) w :
  bind (panic msg) f w = (inl (Panicked msg), w).
Proof. reflexivity. Qed.

Lemma bind_assoc {A B C} (m : M A) (f : A → M B) (g : B → M C) w :
  bind (bind m f) g w = bind m (λ a, bind (f a) g) w.
Proof. unfold bind. by destruct (m w) as [[?|?] ?]. Qed.

Lemma bind_check {B} err (f : unit → M B) w :
  bind (check err) f w =
  match err with
  | Some e => (inl (Returned Result.zero (Some e)), w)
  | None => f tt w
  end.
Proof. by destruct err. Qed.

Lemma bind_Get `{Object A} {B} key (out : A) (f : A * option error → M B) w :
  bind (Get key out) f w =
  f (answerGet key out w) (record (CallGet (kindOf A) key, (answerGet key out w).2) w).
Proof. reflexivity. Qed.

Lemma bind_Create `{Object A} {B} (obj : A) (f : option error → M B) w :
  bind (Create obj) f w =
  f (answerCreate (box obj) w)
    (record (CallCreate (box obj), answerCreate (box obj) w)
            (commit (box obj) (answerCreate (box obj) w) w)).
Proof. reflexivity. Qed.

Lemma bind_Update `{Object A} {B} (obj : A) (f : option error → M B) w :
  bind (Update obj) f w =
  f (answerUpdate (box obj) w)
    (record (CallUpdate (box obj), answerUpdate (box obj) w)
            (commit (box obj) (answerUpdate (box obj) w) w)).
Proof. reflexivity. Qed.

Lemma upsert_write `{Object A} {B} (err : option error) (t : A) (g : unit → M B) w :
  bind (if notNil err && IsNotFound err
        then bind (Create t) (λ e, check e)
        else bind (Update t) (λ e, check e)) g w =
  match answerWrite (mustCreate err) (box t) w with
  | Some e =>
      (inl (Returned Result.zero (Some e)),
       record (writeCall (mustCreate err) (box t), Some e) w)
  | None => g tt (record (writeCall (mustCreate err) (box t), None) (put (box t) w))
  end.
Proof.
  unfold mustCreate, answerWrite, writeCall.
  destruct (notNil err && IsNotFound err); rewrite bind_assoc.
  - rewrite bind_Create. by destruct (answerCreate (box t) w).
  - rewrite bind_Update. by destruct (answerUpdate (box t) w).
Qed.

Lemma createSecret_pair name namespace key value :
  createSecret name namespace key value = (secretOf name namespace key value, None).
Proof. reflexivity. Qed.

Lemma createPostgresJob_pair namespace :
  createPostgresJob namespace = (postgresJob namespace, None).
Proof. reflexivity. Qed.

Lemma index_nil {A B} (f : A → M B) w :
  bind (index [] 0) f w =
  (inl (Panicked "runtime error: index out of range [0] with length 0"), w).
Proof. reflexivity. Qed.

Lemma index_cons {A B} (a : A) l (f : A → M B) w :
  bind (index (a :: l) 0) f w = f a w.
Proof. reflexivity. Qed.

Lemma answerGet_found `{Object A} key (out a : A) w :
  faults w (length (events w)) (CallGet (kindOf A) key) = None →
  store w !! keyOfName (kindOf A) key = Some (box a) →
  answerGet key out w = (a, None).
Proof. intros Hf Hs. unfold answerGet. by rewrite Hf, Hs, unbox_box. Qed.

Lemma answerGet_absent `{Object A} key (out : A) w :
  faults w (length (events w)) (CallGet (kindOf A) key) = None →
  store w !! keyOfName (kindOf A) key = None →
  answerGet key out w = (out, Some (NewNotFound (kindOf A) key)).
Proof. intros Hf Hs. unfold answerGet. by rewrite Hf, Hs. Qed.

Lemma calls_of_app w w' tr : events w' = events w ++ tr → calls_of w w' = tr.
Proof. intros Hev. unfold calls_of. rewrite Hev. apply drop_app_length. Qed.

Section Properties.

Context `{libs : Libraries}.

Lemma Reconcile_body req w :
  Reconcile req w =
  match ReconcileBody req w with
  | (inl o, w') => (o, w')
  | (inr never, _) => match never with end
  end.
Proof. reflexivity. Qed.

Lemma if_differs_yes (P : Prop) `{Decision P} {A} (x y : A) :
  ¬ P → (if negb (bool_decide P) then x else y) = x.
Proof. intros HP. by rewrite bool_decide_false. Qed.

Lemma if_differs_no (P : Prop) `{Decision P} {A} (x y : A) :
  P → (if negb (bool_decide P) then x else y) = y.
Proof. intros HP. by rewrite bool_decide_true. Qed.

Ltac exec_red H :=
  cbn beta iota zeta delta [fst snd notNil isNil andb negb] in H.

Ltac exec_match H x :=
  lazymatch x with
  | createSecret _ _ _ _ => rewrite createSecret_pair in H
  | createPostgresJob _ => rewrite createPostgresJob_pair in H
  | b64_DecodeString ?c =>
      let d := fresh "decoded" in
      let e := fresh "decodeErr" in
      let Hd := fresh "Hdecode" in
      destruct (b64_DecodeString c) as [d e] eqn:Hd
  | json_Unmarshal ?c =>
      let Hd := fresh "Hjson" in destruct (json_Unmarshal c) eqn:Hd
  | _ => destruct x eqn:?
  end.

Ltac exec_if H c :=
  lazymatch type of c with
  | bool =>
      lazymatch c with
      | context [notNil ?e] => is_var e; destruct e
      | negb (@bool_decide ?P ?inst) =>
          let Hd := fresh "Hsize" in
          destruct (@decide P inst) as [Hd|Hd];
          [rewrite (@if_differs_no P inst _ _ _ Hd) in H
          |rewrite (@if_differs_yes P inst _ _ _ Hd) in H]
      | _ => destruct c eqn:?
      end
  | _ => exec_match H c
  end.

Ltac exec1 H :=
  lazymatch type of H with
  | bind (ret _) _ _ = _ => rewrite bind_ret in H
  | bind (Return _ _) _ _ = _ => rewrite bind_Return in H
  | bind (panic _) _ _ = _ => rewrite bind_panic in H
  | bind (check _) _ _ = _ => rewrite bind_check in H
  | bind (bind _ _) _ _ = _ => rewrite bind_assoc in H
  | bind (Get ?k ?out) _ ?w = _ =>
      let o := fresh "got" in
      let e := fresh "rg" in
      let Hg := fresh "Hget" in
      rewrite bind_Get in H;
      destruct (answerGet k out w) as [o e] eqn:Hg
  | bind (if notNil ?e && IsNotFound ?e
          then bind (Create _) _ else bind (Update _) _) _ _ = _ =>
      rewrite upsert_write in H
  | bind (Create _) _ _ = _ => rewrite bind_Create in H
  | bind (Update _) _ _ = _ => rewrite bind_Update in H
  | bind (index [] 0) _ _ = _ => rewrite index_nil in H
  | bind (index (_ :: _) 0) _ _ = _ => rewrite index_cons in H
  | bind (index ?l 0) _ _ = _ => let Hh := fresh "Hhosts" in destruct l eqn:Hh
  | bind (deref ?p) _ _ = _ =>
      let Hr := fresh "Hreplicas" in destruct p eqn:Hr; unfold deref in H
  | bind (if ?c then _ else _) _ _ = _ => exec_if H c
  | (if ?c then _ else _) _ = _ => exec_if H c
  | (if ?c then _ else _) = _ => exec_if H c
  | bind (match ?x with _ => _ end) _ _ = _ => exec_match H x
  | (match ?x with _ => _ end) _ = _ => exec_match H x
  | match ?x with _ => _ end = _ => exec_match H x
  | Return _ _ _ = _ => unfold Return in H
  end; exec_red H.

(** Every way a run can go: [H : Reconcile req w = (o, w')] is replaced by
    one goal per exit of the controller, with the answers of the cluster
    named in the context. *)
Ltac reconcile_cases H :=
  let HB := fresh "HB" in
  let o0 := fresh "o" in
  let w0 := fresh "w" in
  rewrite Reconcile_body in H;
  match type of H with
  | match ?b with _ => _ end = _ =>
      destruct b as [[o0|[]] w0] eqn:HB
  end;
  unfold ReconcileBody in HB; exec_red HB;
  repeat exec1 HB;
  injection HB as <- <-; injection H as <- <-.


Ltac obj_simpl H :=
  cbn [kindOf box ECommerceApplication_Object Secret_Object Job_Object
       Deployment_Object] in H.

Ltac obj_all :=
  cbn [kindOf box ECommerceApplication_Object Secret_Object Job_Object
       Deployment_Object] in *.

(** Replaces [calls_of w W], for the world [W] a run has reached, by the
    list of the calls made. *)
Ltac calls_norm :=
  match goal with
  | Hh : context [calls_of ?w ?W] |- _ =>
      let Hc := fresh "Hcalls" in
      eassert (Hc : calls_of w W = _)
        by (apply calls_of_app; cbn [events record put commit];
            rewrite <- ?app_assoc; cbn [app]; reflexivity);
      rewrite !Hc in *; clear Hc
  | |- context [calls_of ?w ?W] =>
      let Hc := fresh "Hcalls" in
      eassert (Hc : calls_of w W = _)
        by (apply calls_of_app; cbn [events record put commit];
            rewrite <- ?app_assoc; cbn [app]; reflexivity);
      rewrite !Hc in *; clear Hc
  end.

(** Case analysis on a membership in an explicit list. *)
Ltac elem_cases H :=
  repeat match type of H with
  | _ ∈ _ :: _ => apply elem_of_cons in H as [H|H]
  | _ ∈ [] => by apply elem_of_nil in H
  end.

Lemma served_0 w c : served w 0 c → faults w (length (events w)) c = None.
Proof. unfold served. by rewrite Nat.add_0_r. Qed.

Lemma served_record w ev n c :
  served w (S n) c → served (record ev w) n c.
Proof.
  unfold served. cbn [faults events record]. rewrite length_app. cbn [length].
  by replace (length (events w) + 1 + n)%nat with (length (events w) + S n)%nat by lia.
Qed.

Lemma calls_of_2 w a b : calls_of w (record b (record a w)) = [a; b].
Proof. apply calls_of_app. cbn [events record]. by rewrite <- app_assoc. Qed.


Lemma writtenBy_writeCall b o r : writtenBy (writeCall b o, r) = Some o.
Proof. by destruct b. Qed.

Lemma answerGet_error `{Object A} key (out got : A) w e :
  answerGet key out w = (got, Some e) → got = out.
Proof. unfold answerGet. repeat case_match; congruence. Qed.

Lemma answerGet_None_inv `{Object A} key (out got : A) w :
  answerGet key out w = (got, None) →
  store w !! keyOfName (kindOf A) key = Some (box got).
Proof.
  unfold answerGet. repeat case_match; try congruence.
  intros [= <-]. f_equal. by apply unbox_Some.
Qed.

Lemma lookup_upsert_kind_ne (o : AnyObject) (st : gmap Key AnyObject) k key :
  anyKind o ≠ k → <[anyKey o := o]> st !! keyOfName k key = st !! keyOfName k key.
Proof. intros Hk. apply lookup_insert_ne. unfold anyKey, keyOfName. congruence. Qed.

Lemma writeCall_create b o o' : writeCall b o = CallCreate o' → o = o' ∧ b = true.
Proof. destruct b; by intros [= ->]. Qed.

Lemma mustCreate_true rg : mustCreate rg = true → ∃ e, rg = Some e.
Proof. destruct rg; [eauto|done]. Qed.

Lemma wf_store_upsert (o : AnyObject) (st : gmap Key AnyObject) :
  wf_store st → wf_store (<[anyKey o := o]> st).
Proof. intros Hwf. by apply map_Forall_insert_2. Qed.

Lemma answerGet_name `{Object A} key (out got : A) w rg :
  wf_store (store w) →
  nameOf out = key →
  answerGet key out w = (got, rg) →
  nameOf got = key.
Proof.
  intros Hwf Hout. unfold answerGet.
  destruct (faults w (length (events w)) (CallGet (kindOf A) key)); [congruence|].
  destruct (store w !! keyOfName (kindOf A) key) as [o|] eqn:Hst; [|congruence].
  destruct (unbox o) as [a|] eqn:Ha; [|congruence].
  intros [= <- _]. apply unbox_Some in Ha as ->.
  apply Hwf in Hst. unfold nameOf, anyName. unfold anyKey, keyOfName in Hst.
  destruct key. cbn in Hst. congruence.
Qed.

Lemma deploymentForMemcached_owned m :
  ObjectMeta.OwnerReferences (Deployment.ObjectMeta (deploymentForMemcached m))
  = [controllerRef m].
Proof.
  unfold deploymentForMemcached, SetControllerReference.
  cbn [Deployment.ObjectMeta ObjectMeta.Namespace ObjectMeta.OwnerReferences find].
  destruct (bool_decide (ECommerceApplication.Namespace m = "")) eqn:Hns; cbn [negb andb].
  - reflexivity.
  - rewrite (bool_decide_true (ECommerceApplication.Namespace m
                               = ECommerceApplication.Namespace m)) by done.
    reflexivity.
Qed.

Lemma targetOf_writeCall b o : targetOf (writeCall b o) = (anyKind o, anyName o).
Proof. by destruct b. Qed.

Lemma written_nil : written [] = [].
Proof. reflexivity. Qed.

Lemma written_get k key r tr : written ((CallGet k key, r) :: tr) = written tr.
Proof. reflexivity. Qed.

Lemma written_write b o r tr : written ((writeCall b o, r) :: tr) = o :: written tr.
Proof. by destruct b. Qed.

Lemma written_create o r tr : written ((CallCreate o, r) :: tr) = o :: written tr.
Proof. reflexivity. Qed.

Lemma written_update o r tr : written ((CallUpdate o, r) :: tr) = o :: written tr.
Proof. reflexivity. Qed.

Lemma anyKey_box `{Object A} (a : A) key :
  nameOf a = key → anyKey (box a) = keyOfName (kindOf A) key.
Proof.
  intros <-. unfold anyKey, keyOfName, nameOf, anyName. by rewrite box_kind.
Qed.

(** On a cluster that fails no call and stores every resource under its own
    name, a [Get] answers what the store holds. *)
Lemma answerGet_fault_free `{Object A} key (out got : A) w rg :
  fault_free w → wf_store (store w) →
  answerGet key out w = (got, rg) →
  (rg = None ∧ lookupAs (store w) key = Some got)
  ∨ (rg = Some (NewNotFound (kindOf A) key) ∧ got = out
     ∧ lookupAs (store w) key = None (A:=A)
     ∧ store w !! keyOfName (kindOf A) key = None).
Proof.
  intros Hff Hwf. unfold answerGet, lookupAs. rewrite Hff.
  destruct (store w !! keyOfName (kindOf A) key) as [o|] eqn:Hst; cbn.
  - destruct (unbox_kind o) as [a Ha].
    { apply Hwf in Hst. unfold anyKey, keyOfName in Hst. congruence. }
    rewrite Ha. intros [= <- <-]. by left.
  - intros [= <- <-]. by right.
Qed.

(** There the write of an upsert step is always accepted. *)
Lemma answerWrite_accepted `{Object A} key (out got t : A) w rg ev :
  fault_free w →
  answerGet key out w = (got, rg) →
  nameOf t = key →
  answerWrite (mustCreate rg) (box t) (record ev w) = None.
Proof.
  intros Hff Hget Hname. apply anyKey_box in Hname.
  unfold answerGet in Hget. rewrite Hff in Hget.
  unfold answerWrite, answerCreate, answerUpdate.
  cbn [faults store record]. rewrite !Hff, Hname.
  destruct (store w !! keyOfName (kindOf A) key) as [o|] eqn:Hst.
  - destruct (unbox o); injection Hget as _ <-; reflexivity.
  - injection Hget as _ <-. reflexivity.
Qed.

Lemma fault_free_record ev w : fault_free w → fault_free (record ev w).
Proof. done. Qed.

Lemma fault_free_put o w : fault_free w → fault_free (put o w).
Proof. done. Qed.

Lemma wf_store_record ev w : wf_store (store w) → wf_store (store (record ev w)).
Proof. done. Qed.

Lemma wf_store_put o w : wf_store (store w) → wf_store (store (put o w)).
Proof. apply wf_store_upsert. Qed.

Lemma answerGet_default `{Object A} key (out got : A) w rg :
  fault_free w → wf_store (store w) →
  answerGet key out w = (got, rg) →
  got = default out (lookupAs (store w) key).
Proof.
  intros Hff Hwf Hget.
  by destruct (answerGet_fault_free _ _ _ _ _ Hff Hwf Hget)
    as [[_ ->]|(_ & -> & -> & _)].
Qed.

Lemma answerCreate_accepted o w ev :
  fault_free w → store w !! anyKey o = None →
  answerCreate o (record ev w) = None.
Proof.
  intros Hff Hst. unfold answerCreate. cbn [faults store record].
  by rewrite Hff, Hst.
Qed.

Lemma answerUpdate_accepted o o' w ev :
  fault_free w → store w !! anyKey o = Some o' →
  answerUpdate o (record ev w) = None.
Proof.
  intros Hff Hst. unfold answerUpdate. cbn [faults store record].
  by rewrite Hff, Hst.
Qed.

Lemma deploymentForMemcached_name m :
  nameOf (deploymentForMemcached m)
  = {| NamespacedName.Namespace := ECommerceApplication.Namespace m;
       NamespacedName.Name := ECommerceApplication.Name m |}.
Proof.
  unfold deploymentForMemcached, SetControllerReference.
  cbn [Deployment.ObjectMeta ObjectMeta.Namespace ObjectMeta.OwnerReferences find].
  destruct (negb _ && bool_decide _); [reflexivity|].
  destruct (negb _ && negb _); reflexivity.
Qed.

Lemma lookupAs_Some `{Object A} (st : gmap Key AnyObject) key (a : A) :
  lookupAs st key = Some a → st !! keyOfName (kindOf A) key = Some (box a).
Proof.
  unfold lookupAs. destruct (st !! keyOfName (kindOf A) key) as [o|]; [|done].
  cbn. intros Ha. by apply unbox_Some in Ha as ->.
Qed.

(** The worlds of a run on a cluster without faults. *)
Ltac ff_tac :=
  repeat first [apply fault_free_record | apply fault_free_put]; assumption.

Ltac wf_tac :=
  repeat first [apply wf_store_record | apply wf_store_put]; assumption.

Lemma create_deployment_accepted m w ev :
  fault_free w →
  store w !! keyOfName KindDeployment
    {| NamespacedName.Namespace := ECommerceApplication.Namespace m;
       NamespacedName.Name := ECommerceApplication.Name m |} = None →
  answerCreate (AnyDeployment (deploymentForMemcached m)) (record ev w) = None.
Proof.
  intros Hff Hst. apply answerCreate_accepted; [done|].
  pose proof (anyKey_box (deploymentForMemcached m) _ (deploymentForMemcached_name m))
    as Hkey.
  cbn [box kindOf Deployment_Object] in Hkey. by rewrite Hkey.
Qed.

Lemma update_found_accepted key (found : Deployment.t) s w ev :
  fault_free w → wf_store (store w) →
  lookupAs (store w) key = Some found →
  answerUpdate (AnyDeployment (Deployment.set_Spec s found)) (record ev w) = None.
Proof.
  intros Hff Hwf Hst. apply lookupAs_Some in Hst.
  apply (answerUpdate_accepted _ (AnyDeployment found)); [done|].
  pose proof (Hwf _ _ Hst) as Hkey. cbn in Hkey.
  change (anyKey (AnyDeployment (Deployment.set_Spec s found)))
    with (anyKey (AnyDeployment found)).
  by rewrite Hkey.
Qed.

Ltac get_facts Hg :=
  let Hrg := fresh "Hrg" in
  let Hout := fresh "Hout" in
  let Hraw := fresh "Hraw" in
  apply answerGet_fault_free in Hg; [|ff_tac|wf_tac];
  destruct Hg as [[Hrg Hg]|(Hrg & Hout & Hg & Hraw)];
  [ try discriminate Hrg; clear Hrg
  | try discriminate Hrg; try (injection Hrg as ->) ];
  cbn [store record put] in Hg.

Lemma Reconcile_fault_free (req : Request.t) (w w' : World) (o : Outcome) :
  fault_free w → wf_store (store w) →
  Reconcile req w = (o, w') →
  storeRun req (store w) = (o, written (calls_of w w'), store w')
  ∧ fault_free w' ∧ wf_store (store w').
Proof.
  intros Hff Hwf H.
  reconcile_cases H.
  (* on this cluster no write of an upsert step is refused *)
  all: try match goal with
       | Hw : answerWrite (mustCreate ?rg) (box ?t) (record _ ?W) = Some _ |- _ =>
         match goal with
         | Hg : answerGet (nameOf ?t') ?out ?W' = (?got, ?rg') |- _ =>
             constr_eq rg rg'; constr_eq t t'; constr_eq W W';
             exfalso;
             rewrite (answerWrite_accepted (nameOf t) out got t W rg) in Hw;
             [discriminate Hw | ff_tac | exact Hg | exact eq_refl]
         | Hg : answerGet ?key (postgresJob ?ns) ?W' = (?got', ?rg') |- _ =>
             constr_eq rg rg'; constr_eq t got'; constr_eq W W';
             exfalso;
             rewrite (answerWrite_accepted key (postgresJob ns) t t W rg) in Hw;
             [discriminate Hw | ff_tac | exact Hg
             | apply (answerGet_name key (postgresJob ns) t W rg);
               [wf_tac | exact eq_refl | exact Hg]]
         end
       end.
  all: repeat match goal with
       | Hw : answerWrite _ _ _ = None |- _ => clear Hw
       end.
  (* and every read answers what the store holds *)
  all: try (apply answerGet_default in Hget5; [|ff_tac|wf_tac];
            cbn [store record put] in Hget5).
  all: try clear Hget1; try clear Hget2; try clear Hget3; try clear Hget4.
  all: get_facts Hget.
  all: try get_facts Hget0.
  all: try get_facts Hget6.
  all: try match goal with
       | Hb : IsNotFound (Some (NewNotFound _ _)) = false |- _ => discriminate Hb
       end.
  all: obj_all.
  all: try match goal with
       | Hc : answerCreate _ (record _ ?W) = Some _ |- _ =>
           exfalso; rewrite create_deployment_accepted in Hc;
           [discriminate Hc | ff_tac | assumption]
       | Hu : answerUpdate _ (record _ ?W) = Some _ |- _ =>
           exfalso; erewrite update_found_accepted in Hu;
           [discriminate Hu | ff_tac | wf_tac | eassumption]
       end.
  all: split; [|split; [ff_tac|wf_tac]].
  all: calls_norm.
  all: cbn [store record put].
  all: repeat first [rewrite written_get | rewrite written_write
                    | rewrite written_create | rewrite written_update].
  all: rewrite written_nil.
  all: try subst got5.
  all: unfold storeRun; rewrite Hget; cbv beta iota zeta.
  all: try (rewrite Hget0; cbv beta iota zeta).
  all: try (rewrite Hjson; cbv beta iota zeta).
  all: try (rewrite Hhosts; cbv beta iota zeta).
  all: unfold upsert, usernameSecret, passwordSecret, certificateSecret, urlSecret,
         postgresUrl.
  all: try (rewrite Hdecode; cbn [fst]).
  all: try (rewrite Hget6; cbv beta iota zeta).
  all: try (rewrite Hreplicas; cbv beta iota zeta).
  all: try match goal with
       | |- context [decide ?P] => destruct (decide P); try contradiction
       end.
  all: reflexivity.
Qed.

Lemma secretOf_StringData name namespace key value :
  Secret.StringData (secretOf name namespace key value) = {[ key := value ]}.
Proof. apply insert_empty. Qed.

Lemma projection_secret s ws :
  projection (AnySecret s :: ws)
  = (ObjectMeta.Name (Secret.ObjectMeta s), Secret.StringData s) :: projection ws.
Proof. reflexivity. Qed.

Lemma projection_job j ws : projection (AnyJob j :: ws) = projection ws.
Proof. reflexivity. Qed.

Lemma projection_deployment d ws : projection (AnyDeployment d :: ws) = projection ws.
Proof. reflexivity. Qed.

Lemma projection_nil : projection [] = [].
Proof. reflexivity. Qed.

(** The run on a cluster without faults, once the credential binding is
    read: [Hrun], the equation of [storeRun], is replaced by one goal per way
    the workload step can go. *)
Ltac store_cases Hrun Happ Hsrc Hjson :=
  unfold storeRun in Hrun;
  rewrite Happ in Hrun; cbv beta iota zeta in Hrun;
  rewrite Hsrc in Hrun; cbv beta iota zeta in Hrun;
  rewrite Hjson in Hrun; cbv beta iota zeta in Hrun.

Ltac workload_cases Hrun :=
  repeat match type of Hrun with
  | match ?x with _ => _ end = _ => destruct x eqn:?
  | (if ?c then _ else _) = _ => destruct c
  end.

Lemma lookup_upsert_other (o : AnyObject) (st : gmap Key AnyObject) (key : Key) :
  anyKey o ≠ key → upsert o st !! key = st !! key.
Proof. apply lookup_insert_ne. Qed.

Lemma lookup_upsert_same (o : AnyObject) (st : gmap Key AnyObject) :
  upsert o st !! anyKey o = Some o.
Proof. apply lookup_insert_eq. Qed.


Lemma anyKey_kind_ne (o o' : AnyObject) : anyKind o ≠ anyKind o' → anyKey o ≠ anyKey o'.
Proof. unfold anyKey. congruence. Qed.

Lemma lookupAs_upsert_kind `{Object A} (o : AnyObject) (st : gmap Key AnyObject) key :
  anyKind o ≠ kindOf A → lookupAs (A:=A) (upsert o st) key = lookupAs st key.
Proof.
  intros Hk. unfold lookupAs, upsert. rewrite lookup_insert_ne; [done|].
  unfold anyKey, keyOfName. congruence.
Qed.

Lemma lookupAs_upsert_same `{Object A} (a : A) (st : gmap Key AnyObject) key :
  nameOf a = key → lookupAs (upsert (box a) st) key = Some a.
Proof.
  intros Hn. unfold lookupAs, upsert. rewrite (anyKey_box a key Hn), lookup_insert_eq.
  apply unbox_box.
Qed.


Lemma lookupAs_name `{Object A} (st : gmap Key AnyObject) key (a : A) :
  wf_store st → lookupAs st key = Some a → nameOf a = key.
Proof.
  intros Hwf Ha. apply lookupAs_Some in Ha. apply Hwf in Ha.
  unfold anyKey, keyOfName in Ha. unfold nameOf, anyName. destruct key. cbn in *.
  congruence.
Qed.



(** The job a run submits is stored under the name of the job it builds. *)
Lemma submitted_job_key (st : gmap Key AnyObject) namespace :
  wf_store st →
  anyKey (AnyJob (default (postgresJob namespace)
                          (lookupAs st (nameOf (postgresJob namespace)))))
  = keyOfName KindJob (nameOf (postgresJob namespace)).
Proof.
  intros Hwf.
  destruct (lookupAs st (nameOf (postgresJob namespace))) as [j|] eqn:Hj; [|done].
  apply (lookupAs_name _ _ _ Hwf) in Hj. by apply (anyKey_box j) in Hj.
Qed.







Lemma deploymentForMemcached_replicas m :
  DeploymentSpec.Replicas (Deployment.Spec (deploymentForMemcached m))
  = Some (ECommerceApplicationSpec.Size (ECommerceApplication.Spec m)).
Proof.
  unfold deploymentForMemcached.
  by destruct (SetControllerReference m _) as [meta ?].
Qed.






Lemma Minute_differs : Minute ≠ 0 ∧ Minute ≠ Second * 300.
Proof. by split. Qed.

(** The decision to be called again in a minute is only taken after the
    accepted update of a deployment, the last call of such a run. *)
Lemma requeue_in_a_minute_after_update (req : Request.t) (w w' : World) (o : Outcome) :
  Reconcile req w = (o, w') →
  o = Returned {| Result.Requeue := false; Result.RequeueAfter := Minute |} None →
  ∃ d, last (calls_of w w') = Some (CallUpdate (AnyDeployment d), None).
Proof.
  intros H Ho.
  reconcile_cases H.
  all: try discriminate Ho.
  all: try (exfalso; injection Ho as Hra; symmetry in Hra;
            by (apply Minute_differs in Hra)).
  calls_norm. obj_all. by eexists.
Qed.

Lemma written_last (tr : list Event) c r obj :
  last tr = Some (c, r) → writtenBy (c, r) = Some obj → last (written tr) = Some obj.
Proof.
  intros (tr' & ->)%last_Some Hw. unfold written.
  rewrite omap_app. cbn [omap list_omap]. rewrite Hw. apply last_snoc.
Qed.

(** C1. Replica convergence. On a cluster that fails no call, where the
    credential source of the desired-state object exists and unmarshals to a
    descriptor with at least one endpoint, and the workload record of the
    object (the deployment stored under the object's name and namespace)
    exists with [replicas] pods: when [replicas] differs from [Spec.Size],
    the last call of the run is the accepted [Update] of that record with
    the replica count set to [Spec.Size], the store holds the updated record
    and the decision is [RequeueAfter] one minute; when [replicas] equals
    [Spec.Size], the decision is [Done], no deployment is submitted for
    writing and the record is as it was. *)
Theorem reconcile_converges_replicas (req : Request.t) (w w' : World) (o : Outcome)
    (m : ECommerceApplication.t) (secret : Secret.t) (data : PostgresBindingJSON.t)
    (h : Hosts.t) (rest : list Hosts.t) (found : Deployment.t) (replicas : Z) :
  let key := {| NamespacedName.Namespace := ECommerceApplication.Namespace m;
                NamespacedName.Name := ECommerceApplication.Name m |} in
  let size := ECommerceApplicationSpec.Size (ECommerceApplication.Spec m) in
  fault_free w → wf_store (store w) →
  lookupAs (store w) (Request.NamespacedName req) = Some m →
  lookupAs (store w) {|
      NamespacedName.Namespace := ECommerceApplication.Namespace m;
      NamespacedName.Name :=
        ECommerceApplicationSpec.PostgresSecretName (ECommerceApplication.Spec m) |}
    = Some secret →
  json_Unmarshal (default "" (Secret.Data secret !! "connection")) = inl data →
  Postgres.Hosts (PostgresBindingJSON.Postgres data) = h :: rest →
  lookupAs (store w) key = Some found →
  DeploymentSpec.Replicas (Deployment.Spec found) = Some replicas →
  Reconcile req w = (o, w') →
  (replicas ≠ size →
     o = Returned {| Result.Requeue := false; Result.RequeueAfter := Minute |} None
     ∧ last (calls_of w w')
       = Some (CallUpdate (AnyDeployment (scaled size found)), None)
     ∧ lookupAs (store w') key = Some (scaled size found)
     ∧ DeploymentSpec.Replicas (Deployment.Spec (scaled size found)) = Some size)
  ∧ (replicas = size →
       o = Returned Result.zero None
       ∧ lookupAs (store w') key = Some found
       ∧ ∀ d, AnyDeployment d ∉ written (calls_of w w')).
Proof.
  intros key size Hff Hwf Happ Hsrc Hjson Hhosts Hdep Hrep H. subst key size.
  destruct (Reconcile_fault_free _ _ _ _ Hff Hwf H) as (Hrun & _ & _).
  assert (Hkey : nameOf found
                 = {| NamespacedName.Namespace := ECommerceApplication.Namespace m;
                      NamespacedName.Name := ECommerceApplication.Name m |})
    by (by apply (lookupAs_name (store w))).
  assert (Hkey' : nameOf (scaled (ECommerceApplicationSpec.Size
                                    (ECommerceApplication.Spec m)) found)
                  = {| NamespacedName.Namespace := ECommerceApplication.Namespace m;
                       NamespacedName.Name := ECommerceApplication.Name m |})
    by exact Hkey.
  store_cases Hrun Happ Hsrc Hjson.
  rewrite Hhosts in Hrun; cbv beta iota zeta in Hrun.
  rewrite !(lookupAs_upsert_kind (A:=Deployment.t)) in Hrun by done.
  rewrite Hdep in Hrun; cbv beta iota zeta in Hrun. rewrite Hrep in Hrun.
  destruct (decide _) as [Heq|Hne] in Hrun; injection Hrun as <- Hw Hst.
  - split; [done|]. intros _. split; [done|]. split.
    + rewrite <- Hst. by rewrite !(lookupAs_upsert_kind (A:=Deployment.t)) by done.
    + intros d Hin. rewrite <- Hw in Hin. elem_cases Hin; discriminate Hin.
  - split; [|done]. intros _. split; [done|]. split; [|split; [|done]].
    + destruct (requeue_in_a_minute_after_update _ _ _ _ H eq_refl) as [d Hlast].
      rewrite Hlast. do 3 f_equal.
      pose proof (written_last _ _ _ _ Hlast eq_refl) as Hwl.
      rewrite <- Hw in Hwl. cbn [app last] in Hwl. by injection Hwl as <-.
    + rewrite <- Hst.
      exact (lookupAs_upsert_same
               (scaled (ECommerceApplicationSpec.Size (ECommerceApplication.Spec m)) found)
               _ _ Hkey').
Qed.

(** C2. Projection. On a cluster that fails no call, when the binding of the
    desired-state object unmarshals to a descriptor with at least one
    endpoint, the secrets a run writes are exactly four, in this order:
    [postgres.username] with the username, [postgres.password] with the
    password, [postgres.certificate-data] with the bytes the base64 decoder
    answers for [certificate_base64], and [postgres.url] with the JDBC URL
    of the first endpoint and the database; the endpoints after the first
    play no part. For the username [u], the password [p], the certificate
    field [Q0VSVA==] decoded as Go's decoder does, the first endpoint
    [db.local:5432] and the database [appdb], the four values are [u], [p],
    [CERT] and
    [jdbc:postgresql://db.local:5432/appdb?sslmode=verify-full&sslrootcert=/cloud-postgres-cert]. *)
Theorem projection_writes_four_secrets (req : Request.t) (w w' : World) (o : Outcome)
    (m : ECommerceApplication.t) (secret : Secret.t) (data : PostgresBindingJSON.t)
    (h : Hosts.t) (rest : list Hosts.t) :
  let p := PostgresBindingJSON.Postgres data in
  fault_free w → wf_store (store w) →
  lookupAs (store w) (Request.NamespacedName req) = Some m →
  lookupAs (store w) {|
      NamespacedName.Namespace := ECommerceApplication.Namespace m;
      NamespacedName.Name :=
        ECommerceApplicationSpec.PostgresSecretName (ECommerceApplication.Spec m) |}
    = Some secret →
  json_Unmarshal (default "" (Secret.Data secret !! "connection")) = inl data →
  Postgres.Hosts p = h :: rest →
  Reconcile req w = (o, w') →
  projection (written (calls_of w w')) =
    [ ("postgres.username",
       {[ "POSTGRES_USERNAME" := Authentication.Username (Postgres.Authentication p) ]});
      ("postgres.password",
       {[ "POSTGRES_PASSWORD" := Authentication.Password (Postgres.Authentication p) ]});
      ("postgres.certificate-data",
       {[ "POSTGRES_CERTIFICATE_DATA" :=
            (b64_DecodeString (Certificate.CertificateBase64 (Postgres.Certificate p))).1 ]});
      ("postgres.url",
       {[ "POSTGRES_URL" :=
            "jdbc:postgresql://" +:+ Hosts.Hostname h +:+ ":" +:+ formatInt (Hosts.Port h)
            +:+ "/" +:+ Postgres.Database p
            +:+ "?sslmode=verify-full&sslrootcert=/cloud-postgres-cert" ]}) ]
  ∧ ∀ u pw,
      Authentication.Username (Postgres.Authentication p) = u →
      Authentication.Password (Postgres.Authentication p) = pw →
      Certificate.CertificateBase64 (Postgres.Certificate p) = "Q0VSVA==" →
      b64_DecodeString "Q0VSVA==" = base64.DecodeString "Q0VSVA==" →
      h = {| Hosts.Hostname := "db.local"; Hosts.Port := 5432 |} →
      Postgres.Database p = "appdb" →
      projection (written (calls_of w w')) =
        [ ("postgres.username", {[ "POSTGRES_USERNAME" := u ]});
          ("postgres.password", {[ "POSTGRES_PASSWORD" := pw ]});
          ("postgres.certificate-data", {[ "POSTGRES_CERTIFICATE_DATA" := "CERT" ]});
          ("postgres.url",
           {[ "POSTGRES_URL" :=
                "jdbc:postgresql://db.local:5432/appdb?sslmode=verify-full&sslrootcert=/cloud-postgres-cert" ]}) ].
Proof.
  intros p Hff Hwf Happ Hsrc Hjson Hhosts H. subst p.
  destruct (Reconcile_fault_free _ _ _ _ Hff Hwf H) as (Hrun & _ & _).
  store_cases Hrun Happ Hsrc Hjson.
  rewrite Hhosts in Hrun; cbv beta iota zeta in Hrun.
  match goal with |- ?A ∧ _ => assert (Hfour : A); [|split; [exact Hfour|]] end.
  - workload_cases Hrun.
    all: injection Hrun as _ <- _.
    all: cbn [app].
    all: unfold usernameSecret, passwordSecret, certificateSecret, urlSecret, postgresUrl.
    all: rewrite !projection_secret, projection_job, ?projection_deployment,
           projection_nil, !secretOf_StringData.
    all: reflexivity.
  - intros u pw Hu Hpw Hcert Hgo -> Hdb.
    rewrite Hfour, Hu, Hpw, Hcert, Hgo, Hdb.
    reflexivity.
Qed.

(** C3. When the desired-state object exists and the secret named by its
    [PostgresSecretName] is absent from its namespace, [Reconcile] answers
    [RequeueAfter] 300 seconds, having made two reads and no write: no
    secret, job or deployment is created or updated and the store is as it
    was. *)
Theorem reconcile_waits_for_credential_source (req : Request.t) (w : World)
    (m : ECommerceApplication.t) :
  let source := {|
    NamespacedName.Namespace := ECommerceApplication.Namespace m;
    NamespacedName.Name :=
      ECommerceApplicationSpec.PostgresSecretName (ECommerceApplication.Spec m) |} in
  store w !! keyOfName KindECommerceApplication (Request.NamespacedName req)
    = Some (AnyECommerceApplication m) →
  store w !! keyOfName KindSecret source = None →
  served w 0 (CallGet KindECommerceApplication (Request.NamespacedName req)) →
  served w 1 (CallGet KindSecret source) →
  ∃ w',
    Reconcile req w =
      (Returned {| Result.Requeue := false; Result.RequeueAfter := 300 * Second |} None, w')
    ∧ store w' = store w
    ∧ calls_of w w' =
        [ (CallGet KindECommerceApplication (Request.NamespacedName req), None);
          (CallGet KindSecret source, Some (NewNotFound KindSecret source)) ]
    ∧ written (calls_of w w') = [].
Proof.
  intros source Happ Hsrc Hs0 Hs1.
  destruct (Reconcile req w) as [o w'] eqn:H.
  reconcile_cases H.
  all: rewrite (answerGet_found _ _ m) in Hget by (done || by apply served_0).
  all: try discriminate Hget.
  all: injection Hget as <-.
  all: rewrite answerGet_absent in Hget0 by (done || by apply served_0, served_record).
  all: try discriminate Hget0.
  all: injection Hget0 as <- <-.
  all: try discriminate.
  eexists. split; [reflexivity|]. split; [reflexivity|].
  by rewrite calls_of_2.
Qed.

(** C4. When the payload of the credential source (the bytes under
    [connection]) does not unmarshal, [Reconcile] returns the unmarshalling
    error (the spec's MalformedBindingError) after its two reads: none of the
    four secrets is created or updated and the store is as it was. *)
Theorem reconcile_rejects_malformed_binding (req : Request.t) (w : World)
    (m : ECommerceApplication.t) (secret : Secret.t) (e : error) :
  let source := {|
    NamespacedName.Namespace := ECommerceApplication.Namespace m;
    NamespacedName.Name :=
      ECommerceApplicationSpec.PostgresSecretName (ECommerceApplication.Spec m) |} in
  store w !! keyOfName KindECommerceApplication (Request.NamespacedName req)
    = Some (AnyECommerceApplication m) →
  store w !! keyOfName KindSecret source = Some (AnySecret secret) →
  served w 0 (CallGet KindECommerceApplication (Request.NamespacedName req)) →
  served w 1 (CallGet KindSecret source) →
  json_Unmarshal (default "" (Secret.Data secret !! "connection")) = inr e →
  ∃ w',
    Reconcile req w = (Returned Result.zero (Some e), w')
    ∧ store w' = store w
    ∧ calls_of w w' =
        [ (CallGet KindECommerceApplication (Request.NamespacedName req), None);
          (CallGet KindSecret source, None) ]
    ∧ written (calls_of w w') = [].
Proof.
  intros source Happ Hsrc Hs0 Hs1 Hbad.
  destruct (Reconcile req w) as [o w'] eqn:H.
  reconcile_cases H.
  all: rewrite (answerGet_found _ _ m) in Hget by (done || by apply served_0).
  all: try discriminate Hget.
  all: injection Hget as <-.
  all: rewrite (answerGet_found _ _ secret) in Hget0
         by (done || by apply served_0, served_record).
  all: try discriminate Hget0.
  all: injection Hget0 as <-.
  all: rewrite Hbad in Hjson; try discriminate Hjson.
  injection Hjson as <-.
  eexists. split; [reflexivity|]. split; [reflexivity|].
  by rewrite calls_of_2.
Qed.

(** C5. What the code does with a certificate that is not valid base64. On a
    cluster that fails no call, with a binding that unmarshals, when the
    decoder answers an error for [certificate_base64] together with the bytes
    [decoded] it had decoded before the error (none, or a truncated
    certificate), the run writes and stores the [postgres.certificate-data]
    secret with [decoded] as its value and returns no error: the decoding
    error is dropped, where the spec asks for a CertificateDecodeError. *)
Theorem certificate_decode_error_is_dropped (req : Request.t) (w w' : World)
    (o : Outcome) (m : ECommerceApplication.t) (secret : Secret.t)
    (data : PostgresBindingJSON.t) (decoded : string) (e : error) :
  let p := PostgresBindingJSON.Postgres data in
  let namespace := ECommerceApplication.Namespace m in
  fault_free w → wf_store (store w) →
  lookupAs (store w) (Request.NamespacedName req) = Some m →
  lookupAs (store w) {|
      NamespacedName.Namespace := ECommerceApplication.Namespace m;
      NamespacedName.Name :=
        ECommerceApplicationSpec.PostgresSecretName (ECommerceApplication.Spec m) |}
    = Some secret →
  json_Unmarshal (default "" (Secret.Data secret !! "connection")) = inl data →
  b64_DecodeString (Certificate.CertificateBase64 (Postgres.Certificate p))
    = (decoded, Some e) →
  Reconcile req w = (o, w') →
  AnySecret (certificateSecret namespace decoded) ∈ written (calls_of w w')
  ∧ store w' !! anyKey (AnySecret (certificateSecret namespace decoded))
    = Some (AnySecret (certificateSecret namespace decoded))
  ∧ Secret.StringData (certificateSecret namespace decoded)
    = {[ "POSTGRES_CERTIFICATE_DATA" := decoded ]}
  ∧ ∀ res err, o = Returned res err → err = None.
Proof.
  intros p namespace Hff Hwf Happ Hsrc Hjson Hdecode H. subst p namespace.
  destruct (Reconcile_fault_free _ _ _ _ Hff Hwf H) as (Hrun & _ & _).
  store_cases Hrun Happ Hsrc Hjson.
  rewrite Hdecode in Hrun. cbn [fst] in Hrun.
  workload_cases Hrun.
  all: injection Hrun as <- <- <-.
  all: split; [rewrite ?elem_of_app, !elem_of_cons; tauto|].
  all: split; [|split; [apply secretOf_StringData|congruence]].
  all: rewrite ?(lookup_upsert_other (AnyDeployment _)) by (by apply anyKey_kind_ne).
  all: rewrite ?(lookup_upsert_other (AnyJob _)) by (by apply anyKey_kind_ne).
  all: rewrite ?(lookup_upsert_other (AnySecret (urlSecret _ _ _)))
         by (unfold anyKey; cbn; congruence).
  all: apply lookup_upsert_same.
Qed.

(** C6. Ownership. Every deployment that a run creates is the one built for
    the desired-state object read from the store, under the name and in the
    namespace of that object, and it carries exactly one owner reference: the
    reference to that object, by its kind, its name and its UID, marked as
    the controller and as blocking the deletion of the owner. Every job that
    a run creates has an empty [OwnerReferences]. *)
Theorem created_workload_is_owned_job_is_not (req : Request.t) (w w' : World)
    (o : Outcome) :
  Reconcile req w = (o, w') →
  (∀ d r, (CallCreate (AnyDeployment d), r) ∈ calls_of w w' →
     ∃ m, store w !! keyOfName KindECommerceApplication (Request.NamespacedName req)
            = Some (AnyECommerceApplication m)
          ∧ d = deploymentForMemcached m
          ∧ ObjectMeta.Name (Deployment.ObjectMeta d)
            = ObjectMeta.Name (ECommerceApplication.ObjectMeta m)
          ∧ ObjectMeta.Namespace (Deployment.ObjectMeta d)
            = ObjectMeta.Namespace (ECommerceApplication.ObjectMeta m)
          ∧ ObjectMeta.OwnerReferences (Deployment.ObjectMeta d) =
              [ {| OwnerReference.APIVersion := "cache.saas.ecommerce.sample.com/v1alpha1";
                   OwnerReference.Kind := "ECommerceApplication";
                   OwnerReference.Name :=
                     ObjectMeta.Name (ECommerceApplication.ObjectMeta m);
                   OwnerReference.UID :=
                     ObjectMeta.UID (ECommerceApplication.ObjectMeta m);
                   OwnerReference.Controller := Some true;
                   OwnerReference.BlockOwnerDeletion := Some true |} ])
  ∧ (∀ j r, (CallCreate (AnyJob j), r) ∈ calls_of w w' →
       ObjectMeta.OwnerReferences (Job.ObjectMeta j) = []).
Proof.
  intros H. split.
  - intros d r Hin.
    reconcile_cases H.
    all: calls_norm.
    all: elem_cases Hin.
    all: obj_simpl Hin.
    all: try discriminate Hin.
    all: try (injection Hin as Hc _; symmetry in Hc;
              apply writeCall_create in Hc as [Hc _]; discriminate Hc).
    all: injection Hin as -> _.
    all: apply answerGet_None_inv in Hget; obj_simpl Hget.
    all: eexists; split; [exact Hget|]; split; [reflexivity|].
    all: pose proof (deploymentForMemcached_name got) as Hname.
    all: injection Hname as Hns Hn.
    all: split; [exact Hn|]; split; [exact Hns|].
    all: exact (deploymentForMemcached_owned got).
  - intros j r Hin.
    reconcile_cases H.
    all: calls_norm.
    all: elem_cases Hin.
    all: obj_simpl Hin.
    all: try discriminate Hin.
    all: injection Hin as Hc _; symmetry in Hc;
         apply writeCall_create in Hc as [Hc Hb]; try discriminate Hc.
    all: injection Hc as ->.
    all: apply mustCreate_true in Hb as [e' ->].
    all: match goal with
         | Hg : answerGet _ (postgresJob _) _ = (_, Some _) |- _ =>
             apply answerGet_error in Hg as ->
         end.
    all: reflexivity.
Qed.


(** C8. The connection URL needs a first endpoint. On a cluster that fails
    no call, with a binding that unmarshals: when the endpoint sequence is
    not empty, the access to its first element is in bounds, the
    [postgres.url] secret of that endpoint is written and stored, and the run
    does not end in the index panic; when the sequence is empty, the run
    ends in the run-time panic of the index, after it has written the three
    other secrets: no error value is returned for it. *)
Theorem url_needs_first_endpoint (req : Request.t) (w w' : World) (o : Outcome)
    (m : ECommerceApplication.t) (secret : Secret.t) (data : PostgresBindingJSON.t) :
  let p := PostgresBindingJSON.Postgres data in
  let namespace := ECommerceApplication.Namespace m in
  fault_free w → wf_store (store w) →
  lookupAs (store w) (Request.NamespacedName req) = Some m →
  lookupAs (store w) {|
      NamespacedName.Namespace := ECommerceApplication.Namespace m;
      NamespacedName.Name :=
        ECommerceApplicationSpec.PostgresSecretName (ECommerceApplication.Spec m) |}
    = Some secret →
  json_Unmarshal (default "" (Secret.Data secret !! "connection")) = inl data →
  Reconcile req w = (o, w') →
  (∀ h rest, Postgres.Hosts p = h :: rest →
     index (Postgres.Hosts p) 0 w = (inr h, w)
     ∧ AnySecret (urlSecret namespace p h) ∈ written (calls_of w w')
     ∧ store w' !! anyKey (AnySecret (urlSecret namespace p h))
       = Some (AnySecret (urlSecret namespace p h))
     ∧ o ≠ Panicked "runtime error: index out of range [0] with length 0")
  ∧ (Postgres.Hosts p = [] →
       index (Postgres.Hosts p) 0 w
         = (inl (Panicked "runtime error: index out of range [0] with length 0"), w)
       ∧ o = Panicked "runtime error: index out of range [0] with length 0"
       ∧ written (calls_of w w') =
           [ AnySecret (usernameSecret namespace p);
             AnySecret (passwordSecret namespace p);
             AnySecret (certificateSecret namespace
               (b64_DecodeString
                  (Certificate.CertificateBase64 (Postgres.Certificate p))).1) ]
       ∧ ∀ res err, o ≠ Returned res err).
Proof.
  intros p namespace Hff Hwf Happ Hsrc Hjson H. subst p namespace.
  destruct (Reconcile_fault_free _ _ _ _ Hff Hwf H) as (Hrun & _ & _).
  store_cases Hrun Happ Hsrc Hjson.
  split.
  - intros h rest Hhosts. rewrite Hhosts in Hrun |- *; cbv beta iota zeta in Hrun.
    split; [reflexivity|].
    workload_cases Hrun.
    all: injection Hrun as <- <- <-.
    all: split; [rewrite ?elem_of_app, !elem_of_cons; tauto|].
    all: split; [|discriminate].
    all: rewrite ?(lookup_upsert_other (AnyDeployment _)) by (by apply anyKey_kind_ne).
    all: rewrite (lookup_upsert_other (AnyJob _)) by (by apply anyKey_kind_ne).
    all: apply lookup_upsert_same.
  - intros Hhosts. rewrite Hhosts in Hrun |- *; cbv beta iota zeta in Hrun.
    injection Hrun as <- <- _. by repeat split.
Qed.

(** C9. The init job is one record for the whole cluster. In every run, for
    every desired-state object, each call that is addressed to a job (the
    read, the create, the update) is addressed to the name [pg] in the
    namespace [default], and the eleventh call of a run, the first of the
    init-job step, is the read of that name. *)
Theorem init_job_is_singleton_in_default_namespace (req : Request.t)
    (w w' : World) (o : Outcome) :
  wf_store (store w) →
  Reconcile req w = (o, w') →
  (∀ c r, (c, r) ∈ calls_of w w' →
     (targetOf c).1 = KindJob →
     (targetOf c).2 = {| NamespacedName.Namespace := "default";
                         NamespacedName.Name := "pg" |})
  ∧ (∀ ev, calls_of w w' !! 10%nat = Some ev →
       ev.1 = CallGet KindJob {| NamespacedName.Namespace := "default";
                                 NamespacedName.Name := "pg" |}).
Proof.
  intros Hwf H.
  reconcile_cases H.
  all: calls_norm.
  all: split; [intros c r Hin Hjob | intros ev Hev].
  all: try (cbn [lookup list_lookup] in Hev; try discriminate Hev;
            by injection Hev as <-).
  all: elem_cases Hin.
  all: obj_simpl Hin.
  all: try (injection Hin as -> _; cbn in Hjob; try discriminate Hjob; done).
  all: injection Hin as -> _.
  all: rewrite targetOf_writeCall in *; cbn [fst snd] in *.
  all: try discriminate Hjob.
  all: match goal with
       | Hg : answerGet _ (postgresJob _) ?W = _ |- _ =>
           apply answerGet_name in Hg;
           [|cbn [store record put]; by repeat apply wf_store_upsert|reflexivity]
       end.
  all: done.
Qed.


Lemma answerGet_fault `{Object A} key (out : A) w e :
  faults w (length (events w)) (CallGet (kindOf A) key) = Some e →
  answerGet key out w = (out, Some e).
Proof. intros Hf. unfold answerGet. by rewrite Hf. Qed.

(** X1. A request for an application that is not in the store (deleted
    after the request was queued): the run makes the one read, answers
    [Done] without error and without requeue, and leaves the store as it
    was. *)
Theorem reconcile_ignores_deleted_application (req : Request.t) (w : World) :
  store w !! keyOfName KindECommerceApplication (Request.NamespacedName req) = None →
  served w 0 (CallGet KindECommerceApplication (Request.NamespacedName req)) →
  Reconcile req w =
    (Returned Result.zero None,
     record (CallGet KindECommerceApplication (Request.NamespacedName req),
             Some (NewNotFound KindECommerceApplication (Request.NamespacedName req))) w).
Proof.
  intros Happ Hs0.
  destruct (Reconcile req w) as [o w'] eqn:H.
  reconcile_cases H.
  all: rewrite answerGet_absent in Hget by (done || by apply served_0).
  all: try discriminate Hget.
  all: injection Hget as <- <-.
  all: try discriminate.
  reflexivity.
Qed.

(** X2. When the read of the application fails with an error other than
    NotFound, the run returns that error after that one call and touches
    nothing. *)
Theorem reconcile_returns_application_read_error (req : Request.t) (w : World)
    (e : error) :
  faults w (length (events w))
    (CallGet KindECommerceApplication (Request.NamespacedName req)) = Some e →
  IsNotFound (Some e) = false →
  Reconcile req w =
    (Returned Result.zero (Some e),
     record (CallGet KindECommerceApplication (Request.NamespacedName req), Some e) w).
Proof.
  intros Hf Hnf.
  destruct (Reconcile req w) as [o w'] eqn:H.
  reconcile_cases H.
  all: rewrite (answerGet_fault (A:=ECommerceApplication.t) _ _ _ e) in Hget by done.
  all: try discriminate Hget.
  all: injection Hget as <- <-.
  all: try congruence.
Qed.

(** X3. When the read of the credential source fails with an error other
    than NotFound, the run returns that error after its two reads: it does
    not wait, and it writes nothing. *)
Theorem reconcile_returns_source_read_error (req : Request.t) (w : World)
    (m : ECommerceApplication.t) (e : error) :
  let source := {|
    NamespacedName.Namespace := ECommerceApplication.Namespace m;
    NamespacedName.Name :=
      ECommerceApplicationSpec.PostgresSecretName (ECommerceApplication.Spec m) |} in
  store w !! keyOfName KindECommerceApplication (Request.NamespacedName req)
    = Some (AnyECommerceApplication m) →
  served w 0 (CallGet KindECommerceApplication (Request.NamespacedName req)) →
  faults w (S (length (events w))) (CallGet KindSecret source) = Some e →
  IsNotFound (Some e) = false →
  Reconcile req w =
    (Returned Result.zero (Some e),
     record (CallGet KindSecret source, Some e)
       (record (CallGet KindECommerceApplication (Request.NamespacedName req), None) w)).
Proof.
  intros source Happ Hs0 Hf Hnf. subst source.
  destruct (Reconcile req w) as [o w'] eqn:H.
  reconcile_cases H.
  all: rewrite (answerGet_found _ _ m) in Hget by (done || by apply served_0).
  all: try discriminate Hget.
  all: injection Hget as <-.
  all: rewrite (answerGet_fault (A:=Secret.t) _ _ _ e) in Hget0
         by (cbn [faults events record]; rewrite length_app, Nat.add_1_r; exact Hf).
  all: try discriminate Hget0.
  all: injection Hget0 as <- <-.
  all: try congruence.
Qed.

(** X4. First run for an application: on a cluster that fails no call, when
    the binding unmarshals to a descriptor with an endpoint and no deployment
    is stored under the name of the application, the run creates the
    deployment built for the application as its last write, after the four
    secrets and the job, the store holds that deployment, with [Spec.Size]
    replicas, and the decision is an immediate requeue without error. *)
Theorem reconcile_creates_missing_workload (req : Request.t) (w w' : World)
    (o : Outcome) (m : ECommerceApplication.t) (secret : Secret.t)
    (data : PostgresBindingJSON.t) (h : Hosts.t) (rest : list Hosts.t) :
  let key := {| NamespacedName.Namespace := ECommerceApplication.Namespace m;
                NamespacedName.Name := ECommerceApplication.Name m |} in
  fault_free w → wf_store (store w) →
  lookupAs (store w) (Request.NamespacedName req) = Some m →
  lookupAs (store w) {|
      NamespacedName.Namespace := ECommerceApplication.Namespace m;
      NamespacedName.Name :=
        ECommerceApplicationSpec.PostgresSecretName (ECommerceApplication.Spec m) |}
    = Some secret →
  json_Unmarshal (default "" (Secret.Data secret !! "connection")) = inl data →
  Postgres.Hosts (PostgresBindingJSON.Postgres data) = h :: rest →
  lookupAs (A:=Deployment.t) (store w) key = None →
  Reconcile req w = (o, w') →
  o = Returned {| Result.Requeue := true; Result.RequeueAfter := 0 |} None
  ∧ last (written (calls_of w w')) = Some (AnyDeployment (deploymentForMemcached m))
  ∧ length (written (calls_of w w')) = 6%nat
  ∧ lookupAs (store w') key = Some (deploymentForMemcached m)
  ∧ DeploymentSpec.Replicas (Deployment.Spec (deploymentForMemcached m))
    = Some (ECommerceApplicationSpec.Size (ECommerceApplication.Spec m)).
Proof.
  intros key Hff Hwf Happ Hsrc Hjson Hhosts Hdep H. subst key.
  destruct (Reconcile_fault_free _ _ _ _ Hff Hwf H) as (Hrun & _ & _).
  store_cases Hrun Happ Hsrc Hjson.
  rewrite Hhosts in Hrun; cbv beta iota zeta in Hrun.
  rewrite !(lookupAs_upsert_kind (A:=Deployment.t)) in Hrun by done.
  rewrite Hdep in Hrun. injection Hrun as <- <- <-.
  split; [done|]. split; [done|]. split; [done|].
  split; [|apply deploymentForMemcached_replicas].
  exact (lookupAs_upsert_same (deploymentForMemcached m) _ _
           (deploymentForMemcached_name m)).
Qed.

(** X5. A stored deployment without replica count (a nil [Spec.Replicas]):
    on a cluster that fails no call, with a binding that unmarshals to a
    descriptor with an endpoint, the run writes the four secrets and the job
    and then ends in the run-time panic of the nil pointer dereference; the
    deployment is not written. *)
Theorem reconcile_panics_on_nil_replicas (req : Request.t) (w w' : World)
    (o : Outcome) (m : ECommerceApplication.t) (secret : Secret.t)
    (data : PostgresBindingJSON.t) (h : Hosts.t) (rest : list Hosts.t)
    (found : Deployment.t) :
  let key := {| NamespacedName.Namespace := ECommerceApplication.Namespace m;
                NamespacedName.Name := ECommerceApplication.Name m |} in
  fault_free w → wf_store (store w) →
  lookupAs (store w) (Request.NamespacedName req) = Some m →
  lookupAs (store w) {|
      NamespacedName.Namespace := ECommerceApplication.Namespace m;
      NamespacedName.Name :=
        ECommerceApplicationSpec.PostgresSecretName (ECommerceApplication.Spec m) |}
    = Some secret →
  json_Unmarshal (default "" (Secret.Data secret !! "connection")) = inl data →
  Postgres.Hosts (PostgresBindingJSON.Postgres data) = h :: rest →
  lookupAs (store w) key = Some found →
  DeploymentSpec.Replicas (Deployment.Spec found) = None →
  Reconcile req w = (o, w') →
  o = Panicked "runtime error: invalid memory address or nil pointer dereference"
  ∧ length (written (calls_of w w')) = 5%nat
  ∧ (∀ d, AnyDeployment d ∉ written (calls_of w w'))
  ∧ lookupAs (store w') key = Some found.
Proof.
  intros key Hff Hwf Happ Hsrc Hjson Hhosts Hdep Hrep H. subst key.
  destruct (Reconcile_fault_free _ _ _ _ Hff Hwf H) as (Hrun & _ & _).
  store_cases Hrun Happ Hsrc Hjson.
  rewrite Hhosts in Hrun; cbv beta iota zeta in Hrun.
  rewrite !(lookupAs_upsert_kind (A:=Deployment.t)) in Hrun by done.
  rewrite Hdep in Hrun; cbv beta iota zeta in Hrun. rewrite Hrep in Hrun.
  injection Hrun as <- <- <-.
  split; [done|]. split; [done|]. split.
  - intros d Hin. elem_cases Hin; discriminate Hin.
  - by rewrite !(lookupAs_upsert_kind (A:=Deployment.t)) by done.
Qed.

(** X6. On a cluster that fails no call, the only error a run returns is the
    error of [json.Unmarshal] on the payload of the credential source: every
    other run ends without error, or in a panic. *)
Theorem reconcile_only_returns_unmarshal_errors (req : Request.t) (w w' : World)
    (res : Result.t) (e : error) :
  fault_free w → wf_store (store w) →
  Reconcile req w = (Returned res (Some e), w') →
  res = Result.zero
  ∧ store w' = store w
  ∧ written (calls_of w w') = []
  ∧ ∃ m secret,
      lookupAs (store w) (Request.NamespacedName req) = Some m
      ∧ lookupAs (store w) {|
            NamespacedName.Namespace := ECommerceApplication.Namespace m;
            NamespacedName.Name :=
              ECommerceApplicationSpec.PostgresSecretName (ECommerceApplication.Spec m) |}
        = Some secret
      ∧ json_Unmarshal (default "" (Secret.Data secret !! "connection")) = inr e.
Proof.
  intros Hff Hwf H.
  destruct (Reconcile_fault_free _ _ _ _ Hff Hwf H) as (Hrun & _ & _).
  unfold storeRun in Hrun.
  destruct (lookupAs (store w) (Request.NamespacedName req)) as [m|] eqn:Happ;
    [|discriminate Hrun].
  cbv beta iota zeta in Hrun.
  destruct (lookupAs (A:=Secret.t) (store w) _) as [secret|] eqn:Hsrc in Hrun;
    [|discriminate Hrun].
  destruct (json_Unmarshal _) as [data|e'] eqn:Hjson in Hrun.
  - exfalso. cbv beta iota zeta in Hrun. workload_cases Hrun; discriminate Hrun.
  - injection Hrun as <- <- <- <-. repeat split; try done. by exists m, secret.
Qed.

(** X7. A run is a bounded sequence of calls: it starts with the read of the
    requested application, makes at most fourteen calls, at most six of them
    writes, and only appends its calls to the history of the cluster. *)
Theorem reconcile_makes_bounded_calls (req : Request.t) (w : World) :
  let w' := (Reconcile req w).2 in
  (∃ r, calls_of w w' !! 0%nat
        = Some (CallGet KindECommerceApplication (Request.NamespacedName req), r))
  ∧ (length (calls_of w w') ≤ 14)%nat
  ∧ (length (written (calls_of w w')) ≤ 6)%nat
  ∧ events w' = events w ++ calls_of w w'.
Proof.
  intros w'. subst w'.
  destruct (Reconcile req w) as [o w'] eqn:H. cbn [snd].
  reconcile_cases H.
  all: calls_norm.
  all: split; [by eexists|].
  all: split; [cbn [length]; lia|].
  all: split; [|cbn [events record put commit]; by rewrite <- ?app_assoc].
  all: repeat first [rewrite written_get | rewrite written_write
                    | rewrite written_create | rewrite written_update].
  all: rewrite written_nil; cbn [length]; lia.
Qed.

(** X8. A write that the cluster refuses ends the run: the refusal is the
    error the run returns, with the zero result, and the refused write is its
    last call. This holds for the secrets, the job and the deployment
    alike. *)
Theorem refused_write_ends_the_run (req : Request.t) (w w' : World) (o : Outcome)
    (c : Call) (e : error) (obj : AnyObject) :
  Reconcile req w = (o, w') →
  (c, Some e) ∈ calls_of w w' →
  writtenBy (c, Some e) = Some obj →
  o = Returned Result.zero (Some e) ∧ last (calls_of w w') = Some (c, Some e).
Proof.
  intros H Hin Hwr.
  reconcile_cases H.
  all: calls_norm.
  all: elem_cases Hin.
  all: obj_all.
  all: try discriminate Hin.
  all: try (injection Hin as -> _; discriminate Hwr).
  all: injection Hin as -> ->.
  all: by split.
Qed.

Lemma put_keeps (o : AnyObject) (st : gmap Key AnyObject) (key : Key) :
  is_Some (st !! key) → is_Some (<[anyKey o := o]> st !! key).
Proof. intros Hk. apply lookup_insert_is_Some'. by right. Qed.

Lemma put_other_kind (o : AnyObject) (st : gmap Key AnyObject) k ns n :
  anyKind o ≠ k → <[anyKey o := o]> st !! (k, ns, n) = st !! (k, ns, n).
Proof. intros Hk. apply lookup_insert_ne. unfold anyKey. congruence. Qed.

Lemma put_other_secret (name namespace key value : string) (st : gmap Key AnyObject)
    (ns n : string) :
  name ≠ n →
  <[anyKey (AnySecret (secretOf name namespace key value))
    := AnySecret (secretOf name namespace key value)]> st !! (KindSecret, ns, n)
  = st !! (KindSecret, ns, n).
Proof. intros Hn. apply lookup_insert_ne. unfold anyKey. cbn. congruence. Qed.

(** X9. What a run never touches. A run deletes nothing; it leaves every
    stored application as it is (it writes no status), and it leaves every
    secret as it is whose name is not one of the four projected names: so a
    credential source under another name is only read. The cluster's way of
    failing calls is not changed by a run. *)
Theorem reconcile_preserves_other_resources (req : Request.t) (w : World) :
  let w' := (Reconcile req w).2 in
  (∀ key, is_Some (store w !! key) → is_Some (store w' !! key))
  ∧ (∀ ns n, store w' !! (KindECommerceApplication, ns, n)
             = store w !! (KindECommerceApplication, ns, n))
  ∧ (∀ ns n, n ∉ derivedSecretNames →
       store w' !! (KindSecret, ns, n) = store w !! (KindSecret, ns, n))
  ∧ faults w' = faults w.
Proof.
  intros w'. subst w'.
  destruct (Reconcile req w) as [o w'] eqn:H. cbn [snd].
  reconcile_cases H.
  all: cbn [store faults record put]; obj_all.
  all: split; [intros key Hk; by repeat apply put_keeps|].
  all: split; [intros ns n; by rewrite ?put_other_kind by done|].
  all: split; [|reflexivity].
  all: intros ns n Hn.
  all: assert (Hne : ∀ name, name ∈ derivedSecretNames → name ≠ n) by congruence.
  all: rewrite ?(put_other_kind (AnyDeployment _)) by done.
  all: rewrite ?(put_other_kind (AnyJob _)) by done.
  all: rewrite ?put_other_secret
         by (apply Hne; unfold derivedSecretNames; rewrite !elem_of_cons; tauto).
  all: reflexivity.
Qed.

(** X10. What a run writes. Every resource a run submits is a secret, a job
    or a deployment, never an application. Every secret it submits is one of
    the four projected secrets, in the namespace of the application it read:
    an opaque secret with empty [Data], marked not immutable. Every
    deployment it submits asks for [Spec.Size] replicas. *)
Theorem reconcile_writes_only_derived_resources (req : Request.t) (w w' : World)
    (o : Outcome) (obj : AnyObject) :
  Reconcile req w = (o, w') →
  obj ∈ written (calls_of w w') →
  ∃ m,
    store w !! keyOfName KindECommerceApplication (Request.NamespacedName req)
      = Some (AnyECommerceApplication m)
    ∧ match obj with
      | AnyECommerceApplication _ => False
      | AnySecret s =>
          ObjectMeta.Name (Secret.ObjectMeta s) ∈ derivedSecretNames
          ∧ ObjectMeta.Namespace (Secret.ObjectMeta s) = ECommerceApplication.Namespace m
          ∧ Secret.Type_ s = "Opaque"
          ∧ Secret.Data s = ∅
          ∧ Secret.Immutable s = Some false
      | AnyJob _ => True
      | AnyDeployment d =>
          DeploymentSpec.Replicas (Deployment.Spec d)
          = Some (ECommerceApplicationSpec.Size (ECommerceApplication.Spec m))
      end.
Proof.
  intros H Hin.
  reconcile_cases H.
  all: calls_norm.
  all: repeat first [rewrite written_get in Hin | rewrite written_write in Hin
                    | rewrite written_create in Hin | rewrite written_update in Hin].
  all: rewrite written_nil in Hin.
  all: elem_cases Hin; subst obj.
  all: apply answerGet_None_inv in Hget; obj_simpl Hget.
  all: eexists; split; [exact Hget|].
  all: try exact I.
  all: try apply deploymentForMemcached_replicas.
  all: try reflexivity.
  all: split; [unfold derivedSecretNames; cbn; rewrite !elem_of_cons; tauto|].
  all: by repeat split.
Qed.

(** X11. The deployment built for an application selects its own pods: its
    selector is the label set of its pod template, which carries the name of
    the application under [memcached_cr]; so the deployments of two
    applications with different names have different selectors. *)
Theorem deploymentForMemcached_selects_its_pods (m m' : ECommerceApplication.t) :
  let labels d :=
    ObjectMeta.Labels (PodTemplateSpec.ObjectMeta
                         (DeploymentSpec.Template (Deployment.Spec d))) in
  DeploymentSpec.Selector (Deployment.Spec (deploymentForMemcached m))
    = Some {| LabelSelector.MatchLabels := labels (deploymentForMemcached m) |}
  ∧ labels (deploymentForMemcached m) !! "memcached_cr"
    = Some (ECommerceApplication.Name m)
  ∧ labels (deploymentForMemcached m) !! "app" = Some "memcached"
  ∧ (labels (deploymentForMemcached m) = labels (deploymentForMemcached m') →
     ECommerceApplication.Name m = ECommerceApplication.Name m').
Proof.
  intros labels. subst labels. cbv beta.
  assert (Hl : ∀ a,
    ObjectMeta.Labels (PodTemplateSpec.ObjectMeta
      (DeploymentSpec.Template (Deployment.Spec (deploymentForMemcached a))))
    = labelsForMemcached (ECommerceApplication.Name a)).
  { intros a. unfold deploymentForMemcached.
    by destruct (SetControllerReference a _) as [meta ?]. }
  assert (Hs : DeploymentSpec.Selector (Deployment.Spec (deploymentForMemcached m))
               = Some {| LabelSelector.MatchLabels :=
                           labelsForMemcached (ECommerceApplication.Name m) |}).
  { unfold deploymentForMemcached.
    by destruct (SetControllerReference m _) as [meta ?]. }
  assert (Hcr : ∀ n, labelsForMemcached n !! "memcached_cr" = Some n).
  { intros n. unfold labelsForMemcached.
    rewrite lookup_insert_ne by done. apply lookup_insert_eq. }
  rewrite !Hl, Hs. split; [done|]. split; [apply Hcr|]. split.
  - unfold labelsForMemcached. apply lookup_insert_eq.
  - intros Heq. apply (f_equal (λ l, l !! "memcached_cr")) in Heq.
    rewrite !Hcr in Heq. by injection Heq.
Qed.

(** X12. [getPodNames] answers the names of the pods in the order of the
    pods, one name per pod: none for no pod, and the names of two lists of
    pods one after the other for their concatenation. *)
Theorem getPodNames_lists_the_names_in_order (pods pods' : list Pod.t) :
  getPodNames pods = List.map (λ pod, ObjectMeta.Name (Pod.ObjectMeta pod)) pods
  ∧ length (getPodNames pods) = length pods
  ∧ getPodNames [] = []
  ∧ getPodNames (pods ++ pods') = getPodNames pods ++ getPodNames pods'.
Proof.
  assert (Hfold : ∀ (l : list Pod.t) acc,
    fold_left (λ podNames pod, podNames ++ [ObjectMeta.Name (Pod.ObjectMeta pod)]) l acc
    = acc ++ List.map (λ pod, ObjectMeta.Name (Pod.ObjectMeta pod)) l).
  { induction l as [|pod l IH]; intros acc; cbn [fold_left List.map].
    - by rewrite app_nil_r.
    - by rewrite IH, <- app_assoc. }
  assert (Hmap : ∀ l, getPodNames l
                      = List.map (λ pod, ObjectMeta.Name (Pod.ObjectMeta pod)) l).
  { intros l. unfold getPodNames. by rewrite Hfold. }
  split; [apply Hmap|]. split; [by rewrite Hmap, length_map|].
  split; [reflexivity|]. by rewrite !Hmap, map_app.
Qed.

End Properties.

(** ** The properties on the sample cluster *)

Lemma wf_store_worldOf objects f : wf_store (store (Sample.worldOf objects f)).
Proof.
  unfold Sample.worldOf. cbn [store].
  induction objects as [|o objects IH]; cbn [List.map list_to_map].
  - apply map_Forall_empty.
  - by apply map_Forall_insert_2.
Qed.

Lemma fault_free_worldOf objects : fault_free (Sample.worldOf objects Sample.noFaults).
Proof. done. Qed.

Lemma run_eq w : Reconcile (libs:=Sample.libraries) Sample.req w
                 = ((Sample.run w).1, (Sample.run w).2).
Proof. apply surjective_pairing. Qed.

(** Two pods where five are asked for: the run updates the deployment to five
    pods, as its last call, and asks to be called again in a minute. *)
Lemma reconcile_converges_replicas_witness :
  (Sample.run (Sample.cluster 2)).1
    = Returned {| Result.Requeue := false; Result.RequeueAfter := Minute |} None
  ∧ last (calls_of (Sample.cluster 2) (Sample.run (Sample.cluster 2)).2)
    = Some (CallUpdate (AnyDeployment (scaled 5 (Sample.workload 2))), None)
  ∧ lookupAs (store (Sample.run (Sample.cluster 2)).2)
      {| NamespacedName.Namespace := "tenant-a"; NamespacedName.Name := "shop" |}
    = Some (scaled 5 (Sample.workload 2)).
Proof.
  destruct (reconcile_converges_replicas (libs:=Sample.libraries) Sample.req
              (Sample.cluster 2) (Sample.run (Sample.cluster 2)).2
              (Sample.run (Sample.cluster 2)).1
              Sample.app (Sample.binding Sample.payload) Sample.data
              {| Hosts.Hostname := "db.local"; Hosts.Port := 5432 |}
              [ {| Hosts.Hostname := "b"; Hosts.Port := 2 |} ]
              (Sample.workload 2) 2) as [Hne _].
  - apply fault_free_worldOf.
  - apply wf_store_worldOf.
  - reflexivity.
  - reflexivity.
  - reflexivity.
  - reflexivity.
  - reflexivity.
  - reflexivity.
  - apply run_eq.
  - destruct Hne as (Ho & Hlast & Hst & _); [cbn; lia|]. by repeat split.
Defined.

(** Two pods where five are asked for, on a cluster where the binding of the
    application does not exist yet: the run waits for the binding, writes
    nothing and leaves the deployment at two pods. *)
Lemma reconcile_converges_replicas_counterexample :
  lookupAs (store (Sample.withoutBinding 2))
    {| NamespacedName.Namespace := "tenant-a"; NamespacedName.Name := "shop" |}
    = Some (Sample.workload 2)
  ∧ DeploymentSpec.Replicas (Deployment.Spec (Sample.workload 2)) = Some 2
  ∧ ECommerceApplicationSpec.Size (ECommerceApplication.Spec Sample.app) = 5
  ∧ (Sample.run (Sample.withoutBinding 2)).1
    = Returned {| Result.Requeue := false; Result.RequeueAfter := Second * 300 |} None
  ∧ written (calls_of (Sample.withoutBinding 2) (Sample.run (Sample.withoutBinding 2)).2)
    = []
  ∧ lookupAs (store (Sample.run (Sample.withoutBinding 2)).2)
      {| NamespacedName.Namespace := "tenant-a"; NamespacedName.Name := "shop" |}
    = Some (Sample.workload 2).
Proof. repeat split; reflexivity. Qed.

(** The binding of the sample, with two endpoints: the four secrets hold
    [u], [p], [CERT] and the URL of the first endpoint. *)
Lemma projection_writes_four_secrets_witness :
  projection (written (calls_of (Sample.bound Sample.payload Sample.noFaults)
                         (Sample.run (Sample.bound Sample.payload Sample.noFaults)).2))
  = [ ("postgres.username", {[ "POSTGRES_USERNAME" := "u" ]});
      ("postgres.password", {[ "POSTGRES_PASSWORD" := "p" ]});
      ("postgres.certificate-data", {[ "POSTGRES_CERTIFICATE_DATA" := "CERT" ]});
      ("postgres.url",
       {[ "POSTGRES_URL" :=
            "jdbc:postgresql://db.local:5432/appdb?sslmode=verify-full&sslrootcert=/cloud-postgres-cert" ]}) ].
Proof.
  destruct (projection_writes_four_secrets (libs:=Sample.libraries) Sample.req
              (Sample.bound Sample.payload Sample.noFaults)
              (Sample.run (Sample.bound Sample.payload Sample.noFaults)).2
              (Sample.run (Sample.bound Sample.payload Sample.noFaults)).1
              Sample.app (Sample.binding Sample.payload) Sample.data
              {| Hosts.Hostname := "db.local"; Hosts.Port := 5432 |}
              [ {| Hosts.Hostname := "b"; Hosts.Port := 2 |} ]) as [_ Hinst].
  - apply fault_free_worldOf.
  - apply wf_store_worldOf.
  - reflexivity.
  - reflexivity.
  - reflexivity.
  - reflexivity.
  - apply run_eq.
  - apply (Hinst "u" "p"); reflexivity.
Defined.

(** The application without its binding: the run waits 300 seconds and
    writes nothing. *)
Lemma reconcile_waits_for_credential_source_witness :
  ∃ w',
    Reconcile (libs:=Sample.libraries) Sample.req Sample.unbound
      = (Returned {| Result.Requeue := false; Result.RequeueAfter := 300 * Second |} None, w')
    ∧ store w' = store Sample.unbound
    ∧ written (calls_of Sample.unbound w') = [].
Proof.
  destruct (reconcile_waits_for_credential_source (libs:=Sample.libraries)
              Sample.req Sample.unbound Sample.app) as (w' & Hrun & Hst & _ & Hw).
  - reflexivity.
  - reflexivity.
  - reflexivity.
  - reflexivity.
  - by exists w'.
Defined.

(** A binding that is not JSON: the run returns the syntax error and writes
    nothing. *)
Lemma reconcile_rejects_malformed_binding_witness :
  ∃ w',
    Reconcile (libs:=Sample.libraries) Sample.req
              (Sample.bound "not json" Sample.noFaults)
      = (Returned Result.zero
           (Some (SyntaxError "invalid character looking for beginning of value")), w')
    ∧ store w' = store (Sample.bound "not json" Sample.noFaults)
    ∧ written (calls_of (Sample.bound "not json" Sample.noFaults) w') = [].
Proof.
  destruct (reconcile_rejects_malformed_binding (libs:=Sample.libraries)
              Sample.req (Sample.bound "not json" Sample.noFaults) Sample.app
              (Sample.binding "not json")
              (SyntaxError "invalid character looking for beginning of value"))
    as (w' & Hrun & Hst & _ & Hw).
  - reflexivity.
  - reflexivity.
  - reflexivity.
  - reflexivity.
  - reflexivity.
  - by exists w'.
Defined.

(** The certificate [Q0VS!!!!]: Go's decoder answers the three bytes [CER]
    and the error of offset 4; the run stores [CER] as the certificate and
    returns no error. *)
Lemma certificate_decode_error_is_dropped_witness :
  AnySecret (certificateSecret "tenant-a" "CER")
    ∈ written (calls_of (Sample.bound Sample.payloadBadCertificate Sample.noFaults)
                 (Sample.run (Sample.bound Sample.payloadBadCertificate Sample.noFaults)).2)
  ∧ ∀ res err,
      (Sample.run (Sample.bound Sample.payloadBadCertificate Sample.noFaults)).1
        = Returned res err → err = None.
Proof.
  destruct (certificate_decode_error_is_dropped (libs:=Sample.libraries) Sample.req
              (Sample.bound Sample.payloadBadCertificate Sample.noFaults)
              (Sample.run (Sample.bound Sample.payloadBadCertificate Sample.noFaults)).2
              (Sample.run (Sample.bound Sample.payloadBadCertificate Sample.noFaults)).1
              Sample.app (Sample.binding Sample.payloadBadCertificate)
              (Sample.bindingOf "u" "p" "Q0VS!!!!"
                 [ {| Hosts.Hostname := "db.local"; Hosts.Port := 5432 |} ] "appdb")
              "CER" (CorruptInputError 4)) as (Hin & _ & _ & Hnone).
  - apply fault_free_worldOf.
  - apply wf_store_worldOf.
  - reflexivity.
  - reflexivity.
  - reflexivity.
  - reflexivity.
  - apply run_eq.
  - by split.
Defined.

(** On a cluster without deployment and job, the deployment created is owned
    by the application and the job created has no owner. *)
Lemma created_workload_is_owned_job_is_not_witness :
  (∃ m, store (Sample.bound Sample.payload Sample.noFaults)
          !! keyOfName KindECommerceApplication (Request.NamespacedName Sample.req)
          = Some (AnyECommerceApplication m)
        ∧ ObjectMeta.OwnerReferences
            (Deployment.ObjectMeta (deploymentForMemcached Sample.app)) =
            [ {| OwnerReference.APIVersion := "cache.saas.ecommerce.sample.com/v1alpha1";
                 OwnerReference.Kind := "ECommerceApplication";
                 OwnerReference.Name :=
                   ObjectMeta.Name (ECommerceApplication.ObjectMeta m);
                 OwnerReference.UID :=
                   ObjectMeta.UID (ECommerceApplication.ObjectMeta m);
                 OwnerReference.Controller := Some true;
                 OwnerReference.BlockOwnerDeletion := Some true |} ])
  ∧ ObjectMeta.OwnerReferences (Job.ObjectMeta (postgresJob "tenant-a")) = [].
Proof.
  destruct (created_workload_is_owned_job_is_not (libs:=Sample.libraries) Sample.req
              (Sample.bound Sample.payload Sample.noFaults)
              (Sample.run (Sample.bound Sample.payload Sample.noFaults)).2
              (Sample.run (Sample.bound Sample.payload Sample.noFaults)).1)
    as [Hdep Hjob].
  - apply run_eq.
  - split.
    + destruct (Hdep (deploymentForMemcached Sample.app) None)
        as (m & Hm & _ & _ & _ & Hown).
      * apply (list_elem_of_lookup_2 _ 13%nat). reflexivity.
      * by exists m.
    + apply (Hjob (postgresJob "tenant-a") None).
      apply (list_elem_of_lookup_2 _ 11%nat). reflexivity.
Defined.



(** A binding without endpoint: the run panics on the index, after the three
    other secrets. *)
Lemma url_needs_first_endpoint_witness :
  (Sample.run (Sample.bound Sample.payloadNoHosts Sample.noFaults)).1
    = Panicked "runtime error: index out of range [0] with length 0"
  ∧ length (written (calls_of (Sample.bound Sample.payloadNoHosts Sample.noFaults)
                       (Sample.run (Sample.bound Sample.payloadNoHosts Sample.noFaults)).2))
    = 3%nat.
Proof.
  destruct (url_needs_first_endpoint (libs:=Sample.libraries) Sample.req
              (Sample.bound Sample.payloadNoHosts Sample.noFaults)
              (Sample.run (Sample.bound Sample.payloadNoHosts Sample.noFaults)).2
              (Sample.run (Sample.bound Sample.payloadNoHosts Sample.noFaults)).1
              Sample.app (Sample.binding Sample.payloadNoHosts)
              (Sample.bindingOf "u" "p" "Q0VSVA==" [] "appdb")) as [_ Hnone].
  - apply fault_free_worldOf.
  - apply wf_store_worldOf.
  - reflexivity.
  - reflexivity.
  - reflexivity.
  - apply run_eq.
  - destruct Hnone as (_ & Ho & Hw & _); [reflexivity|].
    split; [exact Ho|]. by rewrite Hw.
Defined.

(** On the sample, the eleventh call reads the job [pg] of the namespace
    [default], and the job created for the tenant [tenant-a] is addressed to
    that name, not to the tenant's namespace. *)
Lemma init_job_is_singleton_in_default_namespace_witness :
  fst <$> (calls_of (Sample.bound Sample.payload Sample.noFaults)
             (Sample.run (Sample.bound Sample.payload Sample.noFaults)).2 !! 10%nat)
    = Some (CallGet KindJob {| NamespacedName.Namespace := "default";
                               NamespacedName.Name := "pg" |})
  ∧ (targetOf (CallCreate (AnyJob (postgresJob "tenant-a")))).2
    = {| NamespacedName.Namespace := "default"; NamespacedName.Name := "pg" |}.
Proof.
  destruct (init_job_is_singleton_in_default_namespace (libs:=Sample.libraries)
              Sample.req (Sample.bound Sample.payload Sample.noFaults)
              (Sample.run (Sample.bound Sample.payload Sample.noFaults)).2
              (Sample.run (Sample.bound Sample.payload Sample.noFaults)).1)
    as [Hall Hten].
  - apply wf_store_worldOf.
  - apply run_eq.
  - split.
    + assert (Hev : calls_of (Sample.bound Sample.payload Sample.noFaults)
                      (Sample.run (Sample.bound Sample.payload Sample.noFaults)).2
                      !! 10%nat
                    = Some (CallGet KindJob (nameOf (postgresJob "tenant-a")),
                            Some (NewNotFound KindJob (nameOf (postgresJob "tenant-a")))))
        by reflexivity.
      rewrite Hev. exact (f_equal Some (Hten _ Hev)).
    + apply (Hall _ None); [|reflexivity].
      apply (list_elem_of_lookup_2 _ 11%nat). reflexivity.
Defined.

(** A request on a cluster without any resource: one read, no error. *)
Lemma reconcile_ignores_deleted_application_witness :
  Reconcile (libs:=Sample.libraries) Sample.req Sample.empty =
    (Returned Result.zero None,
     record (CallGet KindECommerceApplication (Request.NamespacedName Sample.req),
             Some (NewNotFound KindECommerceApplication
                     (Request.NamespacedName Sample.req))) Sample.empty).
Proof.
  apply (reconcile_ignores_deleted_application (libs:=Sample.libraries)).
  - reflexivity.
  - reflexivity.
Defined.

(** The read of the application times out: the timeout is returned. *)
Lemma reconcile_returns_application_read_error_witness :
  Reconcile (libs:=Sample.libraries) Sample.req
            (Sample.bound Sample.payload (Sample.timeoutAt 0)) =
    (Returned Result.zero (Some (StatusError StatusReasonTimeout "timeout")),
     record (CallGet KindECommerceApplication (Request.NamespacedName Sample.req),
             Some (StatusError StatusReasonTimeout "timeout"))
            (Sample.bound Sample.payload (Sample.timeoutAt 0))).
Proof.
  apply (reconcile_returns_application_read_error (libs:=Sample.libraries)).
  - reflexivity.
  - reflexivity.
Defined.

(** The read of the binding times out: the timeout is returned after the
    two reads. *)
Lemma reconcile_returns_source_read_error_witness :
  (Sample.run (Sample.bound Sample.payload (Sample.timeoutAt 1))).1
    = Returned Result.zero (Some (StatusError StatusReasonTimeout "timeout"))
  ∧ written (calls_of (Sample.bound Sample.payload (Sample.timeoutAt 1))
               (Sample.run (Sample.bound Sample.payload (Sample.timeoutAt 1))).2) = [].
Proof.
  unfold Sample.run.
  rewrite (reconcile_returns_source_read_error (libs:=Sample.libraries) Sample.req
             (Sample.bound Sample.payload (Sample.timeoutAt 1)) Sample.app
             (StatusError StatusReasonTimeout "timeout")).
  - split; reflexivity.
  - reflexivity.
  - reflexivity.
  - reflexivity.
  - reflexivity.
Defined.

(** The first run for the application of the sample creates its deployment
    of five pods and asks for an immediate requeue. *)
Lemma reconcile_creates_missing_workload_witness :
  (Sample.run (Sample.bound Sample.payload Sample.noFaults)).1
    = Returned {| Result.Requeue := true; Result.RequeueAfter := 0 |} None
  ∧ lookupAs (store (Sample.run (Sample.bound Sample.payload Sample.noFaults)).2)
      {| NamespacedName.Namespace := "tenant-a"; NamespacedName.Name := "shop" |}
    = Some (deploymentForMemcached Sample.app)
  ∧ DeploymentSpec.Replicas (Deployment.Spec (deploymentForMemcached Sample.app))
    = Some 5.
Proof.
  destruct (reconcile_creates_missing_workload (libs:=Sample.libraries) Sample.req
              (Sample.bound Sample.payload Sample.noFaults)
              (Sample.run (Sample.bound Sample.payload Sample.noFaults)).2
              (Sample.run (Sample.bound Sample.payload Sample.noFaults)).1
              Sample.app (Sample.binding Sample.payload) Sample.data
              {| Hosts.Hostname := "db.local"; Hosts.Port := 5432 |}
              [ {| Hosts.Hostname := "b"; Hosts.Port := 2 |} ])
    as (Ho & _ & _ & Hst & Hrep).
  - apply fault_free_worldOf.
  - apply wf_store_worldOf.
  - reflexivity.
  - reflexivity.
  - reflexivity.
  - reflexivity.
  - reflexivity.
  - apply run_eq.
  - by repeat split.
Defined.

(** A deployment without replica count: the run panics after its five
    upserts. *)
Lemma reconcile_panics_on_nil_replicas_witness :
  (Sample.run Sample.unsized).1
    = Panicked "runtime error: invalid memory address or nil pointer dereference"
  ∧ length (written (calls_of Sample.unsized (Sample.run Sample.unsized).2)) = 5%nat.
Proof.
  destruct (reconcile_panics_on_nil_replicas (libs:=Sample.libraries) Sample.req
              Sample.unsized (Sample.run Sample.unsized).2 (Sample.run Sample.unsized).1
              Sample.app (Sample.binding Sample.payload) Sample.data
              {| Hosts.Hostname := "db.local"; Hosts.Port := 5432 |}
              [ {| Hosts.Hostname := "b"; Hosts.Port := 2 |} ]
              (Deployment.set_Spec
                 (DeploymentSpec.set_Replicas None
                    (Deployment.Spec (deploymentForMemcached Sample.app)))
                 (deploymentForMemcached Sample.app)))
    as (Ho & Hlen & _).
  - apply fault_free_worldOf.
  - apply wf_store_worldOf.
  - reflexivity.
  - reflexivity.
  - reflexivity.
  - reflexivity.
  - reflexivity.
  - reflexivity.
  - apply run_eq.
  - by split.
Defined.

(** The error returned on the binding that is not JSON is the error of the
    decoder on its payload. *)
Lemma reconcile_only_returns_unmarshal_errors_witness :
  ∃ m secret,
    lookupAs (store (Sample.bound "not json" Sample.noFaults))
             (Request.NamespacedName Sample.req) = Some m
    ∧ lookupAs (store (Sample.bound "not json" Sample.noFaults))
        {| NamespacedName.Namespace := ECommerceApplication.Namespace m;
           NamespacedName.Name :=
             ECommerceApplicationSpec.PostgresSecretName (ECommerceApplication.Spec m) |}
      = Some secret
    ∧ json_Unmarshal (Libraries:=Sample.libraries)
        (default "" (Secret.Data secret !! "connection"))
      = inr (SyntaxError "invalid character looking for beginning of value").
Proof.
  destruct (reconcile_only_returns_unmarshal_errors (libs:=Sample.libraries) Sample.req
              (Sample.bound "not json" Sample.noFaults)
              (Sample.run (Sample.bound "not json" Sample.noFaults)).2
              Result.zero
              (SyntaxError "invalid character looking for beginning of value"))
    as (_ & _ & _ & Hwhy).
  - apply fault_free_worldOf.
  - apply wf_store_worldOf.
  - reflexivity.
  - exact Hwhy.
Defined.

(** The update of a secret that is not there is refused, and the run ends
    with that refusal. *)
Lemma refused_write_ends_the_run_witness :
  (Sample.run (Sample.bound Sample.payload (Sample.timeoutAt 2))).1
    = Returned Result.zero
        (Some (NewNotFound KindSecret
                 {| NamespacedName.Namespace := "tenant-a";
                    NamespacedName.Name := "postgres.username" |}))
  ∧ length (calls_of (Sample.bound Sample.payload (Sample.timeoutAt 2))
              (Sample.run (Sample.bound Sample.payload (Sample.timeoutAt 2))).2)
    = 4%nat.
Proof.
  destruct (refused_write_ends_the_run (libs:=Sample.libraries) Sample.req
              (Sample.bound Sample.payload (Sample.timeoutAt 2))
              (Sample.run (Sample.bound Sample.payload (Sample.timeoutAt 2))).2
              (Sample.run (Sample.bound Sample.payload (Sample.timeoutAt 2))).1
              (CallUpdate (AnySecret (usernameSecret "tenant-a"
                                        (PostgresBindingJSON.Postgres Sample.data))))
              (NewNotFound KindSecret
                 {| NamespacedName.Namespace := "tenant-a";
                    NamespacedName.Name := "postgres.username" |})
              (AnySecret (usernameSecret "tenant-a"
                            (PostgresBindingJSON.Postgres Sample.data))))
    as [Ho _].
  - apply run_eq.
  - apply (list_elem_of_lookup_2 _ 3%nat). reflexivity.
  - reflexivity.
  - split; [exact Ho|reflexivity].
Defined.

(** The deployment created on the sample asks for the five pods of the
    application. *)
Lemma reconcile_writes_only_derived_resources_witness :
  ∃ m,
    store (Sample.bound Sample.payload Sample.noFaults)
      !! keyOfName KindECommerceApplication (Request.NamespacedName Sample.req)
      = Some (AnyECommerceApplication m)
    ∧ DeploymentSpec.Replicas (Deployment.Spec (deploymentForMemcached Sample.app))
      = Some (ECommerceApplicationSpec.Size (ECommerceApplication.Spec m)).
Proof.
  apply (reconcile_writes_only_derived_resources (libs:=Sample.libraries) Sample.req
           (Sample.bound Sample.payload Sample.noFaults)
           (Sample.run (Sample.bound Sample.payload Sample.noFaults)).2
           (Sample.run (Sample.bound Sample.payload Sample.noFaults)).1
           (AnyDeployment (deploymentForMemcached Sample.app))).
  - apply run_eq.
  - apply (list_elem_of_lookup_2 _ 5%nat). reflexivity.
Defined.
